(** * Qwen2.5-Math-Classifier: freeze policy and run orchestration

    A shallow embedding of [utils/llama32/create_llama32.py]
    ([create_llama32_classifier]) and of the entry point [main.py]
    ([main]), together with the properties their specification states.

    Parameters of a torch module are objects with a mutable
    [requires_grad] attribute.  They are modelled as handles into a
    shared store of flags, so that a parameter reachable through two
    submodules (tied weights) is one entry of the store. *)

From stdpp Require Import gmap list numbers strings.
From Stdlib Require Import QArith Qcanon.

Close Scope Qc_scope.
Close Scope Q_scope.

Set Default Proof Using "Type".
Set Warnings "-clear-no-such-hyp".

(** ** Python results: a value or a raised exception *)

Inductive exception : Type :=
  | IndexError.

Inductive result (A : Type) : Type :=
  | Ok (a : A)
  | Raise (e : exception).

Arguments Ok {A} a.
Arguments Raise {A} e.

#[global] Instance result_ret : MRet result := @Ok.

#[global] Instance result_bind : MBind result := λ A B k r,
  match r with
  | Ok a => k a
  | Raise e => Raise e
  end.

Definition fails {A : Type} (r : result A) : Prop := ∃ e, r = Raise e.

(** [range(lo, hi)] of Python, on integers. *)
Definition py_range (lo hi : Z) : list Z :=
  (λ k : nat, (lo + Z.of_nat k)%Z) <$> seq 0 (Z.to_nat (hi - lo)).

(** [l[i]] of Python lists and of [nn.ModuleList]: a negative index counts
    from the end, an index outside [-len, len) raises [IndexError]. *)
Definition py_getitem {A : Type} (l : list A) (i : Z) : result A :=
  let len := Z.of_nat (length l) in
  if decide (- len ≤ i < len)%Z then
    let j := if decide (i < 0)%Z then (i + len)%Z else i in
    match l !! Z.to_nat j with
    | Some x => Ok x
    | None => Raise IndexError
    end
  else Raise IndexError.

(** ** The classifier and its parameters *)

Module Llama32.

(** Identity of a [torch.nn.Parameter] object. *)
Abbreviation param := positive.

(** The [requires_grad] attribute of every parameter object. *)
Abbreviation store := (gmap positive bool).

(** [model.llama_base]: the pretrained trunk.  [base_rest] stands for the
    parameters of any trunk submodule the factory does not name. *)
Record LlamaModel : Type := {
  embed_tokens : list param;
  layers : list (list param);
  norm : list param;
  base_rest : list param
}.

(** [Llama32Classifier]: trunk and head.  [model_rest] stands for the
    parameters of any further submodule of the composed model. *)
Record Llama32Classifier : Type := {
  llama_base : LlamaModel;
  classifier : list param;
  model_rest : list param
}.

(** [module.parameters()] of the trunk and of the composed model. *)
Definition base_parameters (b : LlamaModel) : list param :=
  embed_tokens b ++ concat (layers b) ++ norm b ++ base_rest b.

Definition parameters (m : Llama32Classifier) : list param :=
  base_parameters (llama_base m) ++ classifier m ++ model_rest m.

(** The keyword arguments of the factory that drive the freeze policy. *)
Record FreezeConfig : Type := {
  freeze_norm_layer : bool;
  freeze_embedding : bool;
  num_decoder_layers_to_unfreeze : Z
}.

(** [for param in ps: param.requires_grad = v] *)
Fixpoint set_requires_grad (ps : list param) (v : bool) (s : store) : store :=
  match ps with
  | [] => s
  | p :: ps' => set_requires_grad ps' v (<[p := v]> s)
  end.

(** Lines 43-44: freeze all the layers. *)
Definition freeze_all (m : Llama32Classifier) (s : store) : store :=
  set_requires_grad (parameters m) false s.

(** Lines 47-48: unfreeze the classifier layer. *)
Definition unfreeze_classifier (m : Llama32Classifier) (s : store) : store :=
  set_requires_grad (classifier m) true s.

(** Lines 51-53: the embedding layer. *)
Definition unfreeze_embedding (cfg : FreezeConfig) (m : Llama32Classifier)
    (s : store) : store :=
  if negb (freeze_embedding cfg)
  then set_requires_grad (embed_tokens (llama_base m)) true s
  else s.

(** Lines 56-58: the normalization layer. *)
Definition unfreeze_norm (cfg : FreezeConfig) (m : Llama32Classifier)
    (s : store) : store :=
  if negb (freeze_norm_layer cfg)
  then set_requires_grad (norm (llama_base m)) true s
  else s.

(** Lines 63-65: the loop over the layer indices. *)
Fixpoint unfreeze_layers_at (ls : list (list param)) (idx : list Z)
    (s : store) : result store :=
  match idx with
  | [] => Ok s
  | i :: idx' =>
      layer ← py_getitem ls i;
      unfreeze_layers_at ls idx' (set_requires_grad layer true s)
  end.

(** Lines 61-65: unfreeze the last n decoder layers. *)
Definition unfreeze_decoder_layers (cfg : FreezeConfig) (m : Llama32Classifier)
    (s : store) : result store :=
  let n := num_decoder_layers_to_unfreeze cfg in
  if decide (n > 0)%Z then
    let total_layers := Z.of_nat (length (layers (llama_base m))) in
    unfreeze_layers_at (layers (llama_base m))
      (py_range (total_layers - n) total_layers) s
  else Ok s.

(** The freeze policy of [create_llama32_classifier] (lines 42-65), run on
    the flags [s] the freshly built model has. *)
Definition create_llama32_classifier (cfg : FreezeConfig)
    (m : Llama32Classifier) (s : store) : result store :=
  let s := freeze_all m s in
  let s := unfreeze_classifier m s in
  let s := unfreeze_embedding cfg m s in
  let s := unfreeze_norm cfg m s in
  unfreeze_decoder_layers cfg m s.

(** The parameters of the model whose flag is set. *)
Definition trainable (m : Llama32Classifier) (s : store) : gset param :=
  filter (λ p, s !! p = Some true) (list_to_set (parameters m)).

(** The last [n] elements of a list. *)
Definition last_n {A : Type} (n : nat) (l : list A) : list A :=
  drop (length l - n) l.

(** The contributions of the four unfreeze options, as the specification
    words them. *)
Definition head_params (m : Llama32Classifier) : gset param :=
  list_to_set (classifier m).

Definition embedding_params (cfg : FreezeConfig) (m : Llama32Classifier)
    : gset param :=
  if freeze_embedding cfg then ∅ else list_to_set (embed_tokens (llama_base m)).

Definition norm_params (cfg : FreezeConfig) (m : Llama32Classifier)
    : gset param :=
  if freeze_norm_layer cfg then ∅ else list_to_set (norm (llama_base m)).

Definition last_blocks_params (n : nat) (m : Llama32Classifier) : gset param :=
  list_to_set (concat (last_n n (layers (llama_base m)))).

Definition spec_trainable (cfg : FreezeConfig) (m : Llama32Classifier)
    : gset param :=
  head_params m ∪ embedding_params cfg m ∪ norm_params cfg m
  ∪ last_blocks_params (Z.to_nat (num_decoder_layers_to_unfreeze cfg)) m.

End Llama32.

(** ** The entry point [main.py] *)

Module Main.

(** The [Accelerator] object: the keyword arguments [main] passes and the
    place of this process in the launch. *)
Record Accelerator : Type := {
  device_placement : bool;
  split_batches : bool;
  mixed_precision : string;
  cpu : bool;
  num_processes : nat;
  process_index : nat
}.

Definition is_main_process (a : Accelerator) : bool :=
  bool_decide (process_index a = 0).

(** The keyword arguments of the call to [train] (lines 130-141); the
    model, the dataloaders, the loss and the optimizer are objects built
    earlier in the run. *)
Record TrainArgs : Type := {
  epochs : nat;
  accelerator : Accelerator;
  f1_avg_mode : string;
  checkpoint_every_n_epochs : nat;
  save_path : string
}.

(** What one process does to the outside world, in program order. *)
Inductive call : Type :=
  | set_seed (seed : Z)
  | set_cudnn_benchmark (b : bool)
  | set_cudnn_deterministic (b : bool)
  | set_dynamo_suppress_errors (b : bool)
  | set_environ (key value : string)
  | get_secret (name : string)
  | wandb_login
  | hf_login
  | create_qwen25_classifier_with_lora (model_id : string) (num_classes : Z)
  | summarize_model
  | create_dataloaders (batch_size : nat) (shuffle : bool)
  | new_accelerator
  | print_num_processes (n : nat)
  | new_loss_fn
  | new_optimizer
  | wandb_init (project name : string)
  | wandb_log
  | wandb_finish
  | write_checkpoint (epoch : nat) (path : string).

Definition MODEL_ID : string := "Qwen/Qwen2.5-3B".
Definition BATCH_SIZE : nat := 1.
Definition EPOCHS : nat := 5.

(** Lines 87-93. *)
Definition make_accelerator (nprocs rank : nat) : Accelerator :=
  {| device_placement := true;
     split_batches := true;
     mixed_precision := "fp16";
     cpu := false;
     num_processes := nprocs;
     process_index := rank |}.

(** Lines 130-141. *)
Definition train_args (a : Accelerator) : TrainArgs :=
  {| epochs := EPOCHS;
     accelerator := a;
     f1_avg_mode := "macro";
     checkpoint_every_n_epochs := 2;
     save_path := "./finetuned_model/" |}.

(** [main] as run by the process of rank [rank] among [nprocs].  [train]
    is [utils.train.train], which the sources do not include: the calls
    it makes are whatever the given function returns.  Every call is
    taken to return; [main_run] below covers a [train] that raises. *)
Definition main (nprocs rank : nat) (train : TrainArgs → list call)
    : list call :=
  let setup :=
    [ set_seed 42;
      set_cudnn_benchmark false;
      set_cudnn_deterministic true;
      set_dynamo_suppress_errors true;
      set_environ "TOKENIZERS_PARALLELISM" "false";
      get_secret "HF_TOKEN";
      get_secret "WANDB";
      wandb_login;
      hf_login;
      create_qwen25_classifier_with_lora MODEL_ID 8;
      summarize_model;
      create_dataloaders BATCH_SIZE true;
      new_accelerator ] in
  let accelerator := make_accelerator nprocs rank in
  let objects :=
    [ print_num_processes (num_processes accelerator);
      new_loss_fn;
      new_optimizer ] in
  let init :=
    if is_main_process accelerator
    then [ wandb_init "qwen25_math_classifier" "9th" ]
    else [] in
  setup ++ objects ++ init ++ train (train_args accelerator) ++ [ wandb_finish ].

(** The calls of the experiment tracker the coordinator rule is about. *)
Definition tracker_call (c : call) : bool :=
  match c with
  | wandb_init _ _ | wandb_log | wandb_finish => true
  | _ => false
  end.

End Main.

(** ** The training loop of [utils/train.py]

    The sources hold the call to [train] but not its body; the
    orchestrator below follows the specification (section 4.3). *)

Module Orchestrator.

(** A loss as the loop observes it: a number, or infinite / not a number. *)
Inductive loss_value : Type :=
  | Finite (l : Qc)
  | NonFinite.

Inductive fatal_error : Type :=
  | NumericalInstabilityError.

Definition is_nonfinite (l : loss_value) : bool :=
  match l with
  | Finite _ => false
  | NonFinite => true
  end.

(** How many of the observed losses are not finite. *)
Definition nonfinite_losses (ls : list loss_value) : nat :=
  length (filter (λ l, is_nonfinite l = true) ls).

Section Loop.
(** Weights of the model and batches of the iterator. *)
Context {W B : Type}.
(** Forward pass and loss on a batch. *)
Variable loss_fn : W → B → loss_value.
(** Backward pass and optimizer step on a batch. *)
Variable gradient_step : W → B → W.
(** How many non-finite losses an epoch tolerates. *)
Variable threshold : nat.

Record epoch_state : Type := {
  weights : W;
  nonfinite_count : nat
}.

(** Modelled from the spec: one training step of [train]; a non-finite
    loss is counted and its gradient update skipped. *)
Definition train_step (st : epoch_state) (b : B) : epoch_state :=
  match loss_fn (weights st) b with
  | Finite _ =>
      {| weights := gradient_step (weights st) b;
         nonfinite_count := nonfinite_count st |}
  | NonFinite =>
      {| weights := weights st;
         nonfinite_count := S (nonfinite_count st) |}
  end.

(** Modelled from the spec: the training steps of one epoch of [train],
    over the batches in order. *)
Fixpoint train_steps (st : epoch_state) (batches : list B) : epoch_state :=
  match batches with
  | [] => st
  | b :: batches' => train_steps (train_step st b) batches'
  end.

(** Modelled from the spec: one epoch of [train]; the count of non-finite
    losses starts at zero and is held against the threshold when the
    epoch is over. *)
Definition train_epoch (w : W) (batches : list B) : fatal_error + W :=
  let st := train_steps {| weights := w; nonfinite_count := 0 |} batches in
  if decide (threshold < nonfinite_count st)
  then inl NumericalInstabilityError
  else inr (weights st).

(** The losses the steps of an epoch observe, in order. *)
Fixpoint observed_losses (w : W) (batches : list B) : list loss_value :=
  match batches with
  | [] => []
  | b :: batches' =>
      loss_fn w b ::
      observed_losses
        (if is_nonfinite (loss_fn w b) then w else gradient_step w b) batches'
  end.

(** Modelled from the spec: the checkpoint decision of [train] after
    epoch [i]. *)
Definition checkpoint_decision (cadence epochs i : nat) : bool :=
  bool_decide (i mod cadence = 0) || bool_decide (i = epochs).

Record run_result : Type := {
  checkpoints : list nat;
  outcome : fatal_error + W
}.

(** Modelled from the spec: the epoch loop of [train] over the epochs
    [todo]; [data i] are the batches of epoch [i]. *)
Fixpoint run_epochs (cadence epochs : nat) (data : nat → list B)
    (todo : list nat) (w : W) : run_result :=
  match todo with
  | [] => {| checkpoints := []; outcome := inr w |}
  | i :: todo' =>
      match train_epoch w (data i) with
      | inl e => {| checkpoints := []; outcome := inl e |}
      | inr w' =>
          let r := run_epochs cadence epochs data todo' w' in
          {| checkpoints :=
               (if checkpoint_decision cadence epochs i then [i] else [])
               ++ checkpoints r;
             outcome := outcome r |}
      end
  end.

(** Modelled from the spec: [train], on the arguments [main] passes. *)
Definition train (args : Main.TrainArgs) (data : nat → list B) (w : W)
    : run_result :=
  run_epochs (Main.checkpoint_every_n_epochs args) (Main.epochs args) data
    (seq 1 (Main.epochs args)) w.
End Loop.

End Orchestrator.

(** ** Data-parallel steps

    [main] asks the accelerator for [split_batches=True]; the sharding and
    the gradient reduction happen in [train] and follow the
    specification (section 4.3). *)

Module DataParallel.

Local Open Scope Qc_scope.

(** Modelled from the spec: the shard of the global batch that device [k]
    of [W] processes. *)
Definition shard {A : Type} (W k : nat) (batch : list A) : list A :=
  take (length batch / W)%nat (drop (k * (length batch / W))%nat batch).

(** Modelled from the spec: the disjoint shards of the [W] devices, one
    after the other in the global batch. *)
Definition device_shards {A : Type} (W : nat) (batch : list A)
    : list (list A) :=
  (λ k, shard W k batch) <$> seq 0 W.



Definition Qc_of_nat (n : nat) : Qc := Qc_of_Z (Z.of_nat n).

Definition Qc_sum (qs : list Qc) : Qc := foldr Qcplus 0 qs.

Definition Qc_mean (qs : list Qc) : Qc := Qc_sum qs / Qc_of_nat (length qs).

Section Gradients.
(** Examples, and the coordinates of the weight vector. *)
Context {A K : Type}.
(** Gradient of the loss of one example in one coordinate, at the
    weights of the step. *)
Variable example_grad : K → A → Qc.
(** The optimizer update of one coordinate from its gradient. *)
Variable optimizer_step : K → Qc → Qc → Qc.

(** Modelled from the spec: the gradient a worker computes on its
    batch.  The loss of a batch is the mean of the losses of its
    examples ([CrossEntropyLoss] with its default reduction, line 97),
    and so is its gradient. *)
Definition batch_grad (p : K) (batch : list A) : Qc :=
  Qc_mean (example_grad p <$> batch).

(** Modelled from the spec: gradients are averaged across devices
    before the optimizer step. *)
Definition averaged_grad (W : nat) (p : K) (batch : list A) : Qc :=
  Qc_mean (batch_grad p <$> device_shards W batch).

(** Modelled from the spec: the update of coordinate [p] by one worker
    on the whole batch, and by [W] workers on its shards. *)
Definition single_worker_update (θ : K → Qc) (p : K) (batch : list A) : Qc :=
  optimizer_step p (θ p) (batch_grad p batch).

Definition data_parallel_update (W : nat) (θ : K → Qc) (p : K)
    (batch : list A) : Qc :=
  optimizer_step p (θ p) (averaged_grad W p batch).
End Gradients.

End DataParallel.

(** ** Epoch metrics

    [main] asks [train] for macro-averaged F1; the aggregator is part of
    [utils/train.py] and follows the specification (section 4.4). *)

Module MetricAggregator.

Local Open Scope Qc_scope.

















End MetricAggregator.

(** ** Auxiliary definitions of the proofs *)

Import Llama32.

(** The layer [py_getitem] selects at a valid index. *)
Definition layer_of (ls : list (list param)) (i : Z) : list param :=
  let len := Z.of_nat (length ls) in
  default [] (ls !! Z.to_nat (if decide (i < 0)%Z then (i + len)%Z else i)).

Definition valid_index {A : Type} (l : list A) (i : Z) : Prop :=
  (- Z.of_nat (length l) ≤ i < Z.of_nat (length l))%Z.

(** The indices the decoder loop visits. *)
Definition decoder_indices (cfg : FreezeConfig) (m : Llama32Classifier)
    : list Z :=
  let n := num_decoder_layers_to_unfreeze cfg in
  if decide (n > 0)%Z then
    let total_layers := Z.of_nat (length (layers (llama_base m))) in
    py_range (total_layers - n) total_layers
  else [].

(** The parameters the decoder loop visits. *)
Definition decoder_params (cfg : FreezeConfig) (m : Llama32Classifier)
    : list param :=
  concat (layer_of (layers (llama_base m)) <$> decoder_indices cfg m).

(** The parameters some unfreeze branch of the factory reaches. *)
Definition unfrozen_by (cfg : FreezeConfig) (m : Llama32Classifier) (p : param)
    : Prop :=
  p ∈ classifier m
  ∨ (freeze_embedding cfg = false ∧ p ∈ embed_tokens (llama_base m))
  ∨ (freeze_norm_layer cfg = false ∧ p ∈ norm (llama_base m))
  ∨ p ∈ decoder_params cfg m.

(** The flags the factory leaves when no index is out of range. *)
Definition created_store (cfg : FreezeConfig) (m : Llama32Classifier)
    (s : store) : store :=
  set_requires_grad (decoder_params cfg m) true
    (unfreeze_norm cfg m
       (unfreeze_embedding cfg m (unfreeze_classifier m (freeze_all m s)))).

(** The four unfreeze branches of the factory, in program order. *)
Definition branch : Type := store → result store.

Definition branches (cfg : FreezeConfig) (m : Llama32Classifier) : list branch :=
  [ (λ s, Ok (unfreeze_classifier m s));
    (λ s, Ok (unfreeze_embedding cfg m s));
    (λ s, Ok (unfreeze_norm cfg m s));
    unfreeze_decoder_layers cfg m ].

Fixpoint run_branches (bs : list branch) (s : store) : result store :=
  match bs with
  | [] => Ok s
  | b :: bs' => s' ← b s; run_branches bs' s'
  end.

(** What one branch alone makes trainable, from the frozen flags [s]. *)
Definition contribution (m : Llama32Classifier) (s : store) (b : branch)
    : gset param :=
  match b s with
  | Ok s' => trainable m s'
  | Raise _ => ∅
  end.

(** The layers a loop over [idx] reaches, or the exception it stops at. *)
Fixpoint collect_layers (ls : list (list param)) (idx : list Z)
    : result (list param) :=
  match idx with
  | [] => Ok []
  | i :: idx' =>
      l ← py_getitem ls i; ps ← collect_layers ls idx'; Ok (l ++ ps)
  end.

(** A branch that either raises whatever the flags are, or sets the flag
    of a fixed list of parameters. *)
Definition unfreezer (b : branch) : Prop :=
  ∃ r : result (list param),
    ∀ s, b s = (ps ← r; Ok (set_requires_grad ps true s)).

(** [cfg'] unfreezes at least what [cfg] does. *)
Definition unfreezes_more (cfg cfg' : FreezeConfig) : Prop :=
  (freeze_embedding cfg' = true → freeze_embedding cfg = true)
  ∧ (freeze_norm_layer cfg' = true → freeze_norm_layer cfg = true)
  ∧ (num_decoder_layers_to_unfreeze cfg
     ≤ num_decoder_layers_to_unfreeze cfg')%Z.

(** A model of three decoder blocks, with parameters outside the named
    submodules, and the flags it is built with. *)
Definition tiny_model : Llama32Classifier :=
  {| llama_base :=
       {| embed_tokens := [1%positive];
          layers := [[2; 3]; [4; 5]; [6]]%positive;
          norm := [7%positive];
          base_rest := [8%positive] |};
     classifier := [9; 10]%positive;
     model_rest := [11%positive] |}.

Definition fresh_store (m : Llama32Classifier) : store :=
  set_requires_grad (parameters m) true ∅.

(** The defaults of the keyword arguments of the factory. *)
Definition default_config : FreezeConfig :=
  {| freeze_norm_layer := false;
     freeze_embedding := true;
     num_decoder_layers_to_unfreeze := 5 |}.

Definition config_with (n : Z) : FreezeConfig :=
  {| freeze_norm_layer := false;
     freeze_embedding := true;
     num_decoder_layers_to_unfreeze := n |}.

(** A run whose every loss is finite: one batch per epoch, weights that
    count the optimizer steps taken. *)
Definition steady_loss (w : nat) (b : unit) : Orchestrator.loss_value :=
  Orchestrator.Finite (Qc_of_Z 1).

Definition counting_step (w : nat) (b : unit) : nat := S w.

(** A run whose loss is not finite on the batches marked [true]. *)
Definition marked_loss (w : nat) (b : bool) : Orchestrator.loss_value :=
  if b then Orchestrator.NonFinite else Orchestrator.Finite (Qc_of_Z 1).

Definition marked_step (w : nat) (b : bool) : nat := S w.

(** A least-squares toy problem: the gradient of an example is its
    value, the optimizer is plain gradient descent with rate 1/10. *)
Definition toy_grad (p : unit) (x : Z) : Qc := Qc_of_Z x.

Definition sgd_step (p : unit) (w g : Qc) : Qc :=
  (w - g * (Qc_of_Z 1 / Qc_of_Z 10))%Qc.

Definition toy_weights (p : unit) : Qc := Qc_of_Z 1.

Definition toy_batch : list Z := [1; 2; 3; 6]%Z.

(** The arguments [main] passes to [train] on the coordinator of two
    processes, and runs of the loop on them. *)
Definition coordinator_args : Main.TrainArgs :=
  Main.train_args (Main.make_accelerator 2 0).

Definition steady_run : Orchestrator.run_result :=
  Orchestrator.train steady_loss counting_step 0 coordinator_args (λ _, [()]) 0.

Definition marked_state : Orchestrator.epoch_state :=
  {| Orchestrator.weights := 3; Orchestrator.nonfinite_count := 0 |}.




(** The configuration [cfg] with another [num_decoder_layers_to_unfreeze]. *)
Definition with_num_layers (cfg : FreezeConfig) (n : Z) : FreezeConfig :=
  {| freeze_norm_layer := freeze_norm_layer cfg;
     freeze_embedding := freeze_embedding cfg;
     num_decoder_layers_to_unfreeze := n |}.

(** The parameters of the submodules the factory names. *)
Definition named_params (m : Llama32Classifier) : gset param :=
  head_params m
  ∪ list_to_set (embed_tokens (llama_base m))
  ∪ list_to_set (norm (llama_base m))
  ∪ list_to_set (concat (layers (llama_base m))).

(** A model of two decoder blocks whose head shares the parameter [1] with
    the embedding (tied weights). *)
Definition tied_model : Llama32Classifier :=
  {| llama_base :=
       {| embed_tokens := [1%positive];
          layers := [[2]; [3]]%positive;
          norm := [4%positive];
          base_rest := [5%positive] |};
     classifier := [1; 9]%positive;
     model_rest := [6%positive] |}.

(** The decoder blocks a returning call unfreezes: the last
    [num_decoder_layers_to_unfreeze], none for a count below 1 and all of
    them for a count above the number of blocks. *)
Definition decoder_blocks_params (cfg : FreezeConfig) (m : Llama32Classifier)
    : gset param :=
  last_blocks_params
    (Z.to_nat (Z.min (num_decoder_layers_to_unfreeze cfg)
                 (Z.of_nat (length (layers (llama_base m)))))) m.

(** The weights an epoch ends with when read off the losses alone: the
    gradient step of every batch whose loss is finite, in order. *)
Fixpoint finite_steps_weights {W B : Type}
    (loss_fn : W → B → Orchestrator.loss_value) (gradient_step : W → B → W)
    (w : W) (batches : list B) : W :=
  match batches with
  | [] => w
  | b :: batches' =>
      finite_steps_weights loss_fn gradient_step
        (if Orchestrator.is_nonfinite (loss_fn w b) then w else gradient_step w b)
        batches'
  end.

(** An epoch that observes more non-finite losses than the threshold. *)
Definition over_threshold (threshold : nat)
    (losses : list Orchestrator.loss_value) : Prop :=
  threshold < Orchestrator.nonfinite_losses losses.

(** The losses every epoch of [todo] observes if none before it stops the
    run, and the weights after all of them. *)
Fixpoint epoch_losses {W B : Type}
    (loss_fn : W → B → Orchestrator.loss_value) (gradient_step : W → B → W)
    (data : nat → list B) (todo : list nat) (w : W)
    : list (list Orchestrator.loss_value) :=
  match todo with
  | [] => []
  | i :: todo' =>
      Orchestrator.observed_losses loss_fn gradient_step w (data i)
      :: epoch_losses loss_fn gradient_step data todo'
           (finite_steps_weights loss_fn gradient_step w (data i))
  end.

Definition final_weights {W B : Type}
    (loss_fn : W → B → Orchestrator.loss_value) (gradient_step : W → B → W)
    (data : nat → list B) (todo : list nat) (w : W) : W :=
  foldl (λ w i, finite_steps_weights loss_fn gradient_step w (data i)) w todo.

(** The epochs of [todo] that run to their end within the threshold, up
    to the first that does not; read off the losses alone. *)
Fixpoint completed_epochs {W B : Type}
    (loss_fn : W → B → Orchestrator.loss_value) (gradient_step : W → B → W)
    (threshold : nat) (data : nat → list B) (todo : list nat) (w : W)
    : list nat :=
  match todo with
  | [] => []
  | i :: todo' =>
      if decide (threshold
                 < Orchestrator.nonfinite_losses
                     (Orchestrator.observed_losses loss_fn gradient_step w (data i)))
      then []
      else i :: completed_epochs loss_fn gradient_step threshold data todo'
                  (finite_steps_weights loss_fn gradient_step w (data i))
  end.

(** A run of [main]'s five epochs whose last epoch has two non-finite
    losses, one more than the threshold 1. *)
Definition late_failure_data (i : nat) : list bool :=
  if decide (i = 5) then [true; true] else [false; true].

Definition late_failure_run : Orchestrator.run_result :=
  Orchestrator.train marked_loss marked_step 1 coordinator_args
    late_failure_data 0.






(** How a call to [train] ends. *)
Inductive train_end : Type :=
  | Returned
  | Raised.

(** [main] with a [train] that may raise: [main] has no [try], so nothing
    after line 141 runs then.  [train] gives the calls it made and how it
    ended; the calls before it are taken to return. *)
Definition main_run (nprocs rank : nat)
    (train : Main.TrainArgs → list Main.call * train_end) : list Main.call :=
  let setup :=
    [ Main.set_seed 42;
      Main.set_cudnn_benchmark false;
      Main.set_cudnn_deterministic true;
      Main.set_dynamo_suppress_errors true;
      Main.set_environ "TOKENIZERS_PARALLELISM" "false";
      Main.get_secret "HF_TOKEN";
      Main.get_secret "WANDB";
      Main.wandb_login;
      Main.hf_login;
      Main.create_qwen25_classifier_with_lora Main.MODEL_ID 8;
      Main.summarize_model;
      Main.create_dataloaders Main.BATCH_SIZE true;
      Main.new_accelerator ] in
  let accelerator := Main.make_accelerator nprocs rank in
  let objects :=
    [ Main.print_num_processes (Main.num_processes accelerator);
      Main.new_loss_fn;
      Main.new_optimizer ] in
  let init :=
    if Main.is_main_process accelerator
    then [ Main.wandb_init "qwen25_math_classifier" "9th" ]
    else [] in
  let results := train (Main.train_args accelerator) in
  setup ++ objects ++ init ++ results.1
  ++ match results.2 with
     | Returned => [ Main.wandb_finish ]
     | Raised => []
     end.

(** ** The freeze policy: flags after a loop *)

Lemma lookup_set_requires_grad (ps : list param) (v : bool) (s : store) (p : param) :
  set_requires_grad ps v s !! p = if decide (p ∈ ps) then Some v else s !! p.
Proof.
  revert s. induction ps as [|q ps IH]; intros s.
  - rewrite decide_False; [done | apply not_elem_of_nil].
  - simpl. rewrite IH. case_decide as Hps; case_decide as Hq; try done.
    + exfalso. apply Hq. by right.
    + apply elem_of_cons in Hq as [->|Hq]; [|done].
      by rewrite lookup_insert_eq.
    + rewrite lookup_insert_ne; [done|].
      intros ->. apply Hq. by left.
Qed.

Lemma set_requires_grad_app (ps qs : list param) (v : bool) (s : store) :
  set_requires_grad (ps ++ qs) v s = set_requires_grad qs v (set_requires_grad ps v s).
Proof. revert s. induction ps as [|p ps IH]; intros s; simpl; [done | apply IH]. Qed.

Lemma elem_of_py_range (i lo hi : Z) : i ∈ py_range lo hi ↔ (lo ≤ i < hi)%Z.
Proof.
  unfold py_range. rewrite list_elem_of_fmap. split.
  - intros (k & -> & Hk). apply elem_of_seq in Hk. lia.
  - intros Hi. exists (Z.to_nat (i - lo)). split; [lia|].
    apply elem_of_seq. lia.
Qed.

Lemma py_getitem_valid {A : Type} (l : list A) (i : Z) :
  valid_index l i →
  ∃ x, py_getitem l i = Ok x
       ∧ l !! Z.to_nat (if decide (i < 0)%Z then (i + Z.of_nat (length l))%Z else i) = Some x.
Proof.
  intros Hv. unfold py_getitem, valid_index in *. simpl.
  rewrite decide_True by done.
  destruct (l !! _) as [x|] eqn:Hx; [by exists x|].
  apply lookup_ge_None in Hx. case_decide; lia.
Qed.

Lemma py_getitem_invalid {A : Type} (l : list A) (i : Z) :
  ¬ valid_index l i → py_getitem l i = Raise IndexError.
Proof. intros Hv. unfold py_getitem, valid_index in *. simpl. by rewrite decide_False. Qed.

Lemma unfreeze_layers_at_valid (ls : list (list param)) (idx : list Z) (s : store) :
  Forall (valid_index ls) idx →
  unfreeze_layers_at ls idx s
  = Ok (set_requires_grad (concat (layer_of ls <$> idx)) true s).
Proof.
  intros Hall. revert s. induction Hall as [|i idx Hi _ IH]; intros s; simpl; [done|].
  destruct (py_getitem_valid ls i Hi) as (x & Hget & Hx).
  rewrite Hget. simpl.
  rewrite IH, set_requires_grad_app.
  replace (layer_of ls i) with x; [done|].
  unfold layer_of. simpl. by rewrite Hx.
Qed.

Lemma elem_of_concat {A : Type} (x : A) (ls : list (list A)) :
  x ∈ concat ls ↔ ∃ l, l ∈ ls ∧ x ∈ l.
Proof.
  induction ls as [|l ls IH]; simpl.
  - split; [by intros ?%elem_of_nil | by intros (l & ?%elem_of_nil & _)].
  - rewrite elem_of_app, IH. split.
    + intros [Hx | (l' & Hl' & Hx)].
      * exists l. split; [by left | done].
      * exists l'. split; [by right | done].
    + intros (l' & [-> | Hl']%elem_of_cons & Hx); [by left|].
      right. by exists l'.
Qed.

Lemma elem_of_layer_of (ls : list (list param)) (i : Z) (p : param) :
  p ∈ layer_of ls i → p ∈ concat ls.
Proof.
  unfold layer_of. simpl. intros Hp.
  destruct (ls !! _) as [l|] eqn:Hl; simpl in Hp; [|by apply elem_of_nil in Hp].
  apply elem_of_concat. exists l. split; [|done].
  by eapply list_elem_of_lookup_2.
Qed.

Lemma elem_of_decoder_params (cfg : FreezeConfig) (m : Llama32Classifier) (p : param) :
  p ∈ decoder_params cfg m
  ↔ ∃ i, i ∈ decoder_indices cfg m ∧ p ∈ layer_of (layers (llama_base m)) i.
Proof.
  unfold decoder_params. rewrite elem_of_concat. split.
  - intros (l & (i & -> & Hi)%list_elem_of_fmap & Hp). by exists i.
  - intros (i & Hi & Hp). exists (layer_of (layers (llama_base m)) i).
    split; [|done]. apply list_elem_of_fmap. by exists i.
Qed.

Lemma decoder_params_parameters (cfg : FreezeConfig) (m : Llama32Classifier) (p : param) :
  p ∈ decoder_params cfg m → p ∈ parameters m.
Proof.
  intros (i & _ & Hp%elem_of_layer_of)%elem_of_decoder_params.
  unfold parameters, base_parameters. rewrite !elem_of_app. auto.
Qed.

Lemma unfrozen_by_parameters (cfg : FreezeConfig) (m : Llama32Classifier) (p : param) :
  unfrozen_by cfg m p → p ∈ parameters m.
Proof.
  intros [Hp | [[_ Hp] | [[_ Hp] | Hp]]];
    [| | | by eapply decoder_params_parameters];
    unfold parameters, base_parameters; rewrite !elem_of_app; auto.
Qed.

(** The flag of every parameter after the five loops of the factory. *)
Lemma lookup_created_store (cfg : FreezeConfig) (m : Llama32Classifier)
    (s : store) (p : param) :
  (unfrozen_by cfg m p → created_store cfg m s !! p = Some true)
  ∧ (¬ unfrozen_by cfg m p → p ∈ parameters m →
     created_store cfg m s !! p = Some false)
  ∧ (p ∉ parameters m → created_store cfg m s !! p = s !! p).
Proof.
  unfold created_store, unfreeze_norm, unfreeze_embedding, unfreeze_classifier,
    freeze_all, unfrozen_by.
  pose proof (decoder_params_parameters cfg m p) as Hdec.
  assert (p ∈ classifier m → p ∈ parameters m) as Hcls.
  { unfold parameters. rewrite !elem_of_app. auto. }
  assert (p ∈ embed_tokens (llama_base m) → p ∈ parameters m) as Hemb.
  { unfold parameters, base_parameters. rewrite !elem_of_app. auto. }
  assert (p ∈ norm (llama_base m) → p ∈ parameters m) as Hnorm.
  { unfold parameters, base_parameters. rewrite !elem_of_app. auto. }
  destruct (freeze_norm_layer cfg), (freeze_embedding cfg); simpl;
    rewrite !lookup_set_requires_grad;
    repeat destruct (decide _); intuition congruence.
Qed.

Lemma decoder_indices_valid (cfg : FreezeConfig) (m : Llama32Classifier) :
  (num_decoder_layers_to_unfreeze cfg
   ≤ 2 * Z.of_nat (length (layers (llama_base m))))%Z →
  Forall (valid_index (layers (llama_base m))) (decoder_indices cfg m).
Proof.
  intros Hn. apply Forall_forall. intros i. unfold decoder_indices. simpl.
  case_decide; [|by intros ?%elem_of_nil].
  rewrite elem_of_py_range. unfold valid_index. lia.
Qed.

Lemma unfreeze_decoder_layers_indices (cfg : FreezeConfig)
    (m : Llama32Classifier) (s : store) :
  unfreeze_decoder_layers cfg m s
  = unfreeze_layers_at (layers (llama_base m)) (decoder_indices cfg m) s.
Proof. unfold unfreeze_decoder_layers, decoder_indices. simpl. by case_decide. Qed.

Lemma create_llama32_classifier_created (cfg : FreezeConfig)
    (m : Llama32Classifier) (s : store) :
  (num_decoder_layers_to_unfreeze cfg
   ≤ 2 * Z.of_nat (length (layers (llama_base m))))%Z →
  create_llama32_classifier cfg m s = Ok (created_store cfg m s).
Proof.
  intros Hn. unfold create_llama32_classifier. simpl.
  rewrite unfreeze_decoder_layers_indices.
  rewrite unfreeze_layers_at_valid by by apply decoder_indices_valid.
  done.
Qed.

Lemma trainable_created_store (cfg : FreezeConfig) (m : Llama32Classifier)
    (s : store) (p : param) :
  p ∈ trainable m (created_store cfg m s) ↔ unfrozen_by cfg m p.
Proof.
  unfold trainable. rewrite elem_of_filter, elem_of_list_to_set.
  destruct (lookup_created_store cfg m s p) as (Ht & Hf & _). split.
  - intros [Hp Hin]. destruct (decide (unfrozen_by cfg m p)) as [|Hno]; [done|].
    rewrite Hf in Hp by done. discriminate.
  - intros Hu. split; [by apply Ht | by eapply unfrozen_by_parameters].
Qed.

(** Within range, the loop visits the last [n] blocks and nothing else. *)
Lemma decoder_params_last_n (cfg : FreezeConfig) (m : Llama32Classifier) (p : param) :
  (0 ≤ num_decoder_layers_to_unfreeze cfg
   ≤ Z.of_nat (length (layers (llama_base m))))%Z →
  p ∈ decoder_params cfg m
  ↔ p ∈ concat (last_n (Z.to_nat (num_decoder_layers_to_unfreeze cfg))
                  (layers (llama_base m))).
Proof.
  intros Hn. rewrite elem_of_decoder_params, elem_of_concat.
  unfold decoder_indices, last_n. simpl.
  set (ls := layers (llama_base m)) in *.
  set (n := num_decoder_layers_to_unfreeze cfg) in *.
  split.
  - intros (i & Hi & Hp). case_decide; [|by apply elem_of_nil in Hi].
    apply elem_of_py_range in Hi.
    unfold layer_of in Hp. simpl in Hp. rewrite decide_False in Hp by lia.
    destruct (ls !! Z.to_nat i) as [l|] eqn:Hl; simpl in Hp;
      [|by apply elem_of_nil in Hp].
    exists l. split; [|done].
    apply list_elem_of_lookup. exists (Z.to_nat i - (length ls - Z.to_nat n)).
    rewrite lookup_drop. rewrite <- Hl. f_equal. lia.
  - intros (l & Hl & Hp). apply list_elem_of_lookup in Hl as [j Hj].
    rewrite lookup_drop in Hj.
    pose proof (lookup_lt_Some _ _ _ Hj) as Hlt.
    assert (n > 0)%Z as Hpos by lia.
    exists (Z.of_nat (length ls - Z.to_nat n + j)). split.
    + rewrite decide_True by done. apply elem_of_py_range. lia.
    + unfold layer_of. simpl. rewrite decide_False by lia.
      rewrite Nat2Z.id. fold ls. by rewrite Hj.
Qed.

(** Past the range and up to twice the block count, the negative indices
    wrap around and the loop visits every block. *)
Lemma decoder_params_all (cfg : FreezeConfig) (m : Llama32Classifier) (p : param) :
  (Z.of_nat (length (layers (llama_base m)))
   < num_decoder_layers_to_unfreeze cfg
   ≤ 2 * Z.of_nat (length (layers (llama_base m))))%Z →
  p ∈ decoder_params cfg m ↔ p ∈ concat (layers (llama_base m)).
Proof.
  intros Hn. rewrite elem_of_decoder_params. split.
  - intros (i & _ & Hp). by eapply elem_of_layer_of.
  - intros (l & Hl & Hp)%elem_of_concat.
    apply list_elem_of_lookup in Hl as [j Hj].
    pose proof (lookup_lt_Some _ _ _ Hj) as Hlt.
    exists (Z.of_nat j). split.
    + unfold decoder_indices. simpl. rewrite decide_True by lia.
      apply elem_of_py_range. lia.
    + unfold layer_of. simpl. rewrite decide_False by lia.
      rewrite Nat2Z.id. by rewrite Hj.
Qed.

Lemma elem_of_spec_trainable (cfg : FreezeConfig) (m : Llama32Classifier) (p : param) :
  (0 ≤ num_decoder_layers_to_unfreeze cfg
   ≤ Z.of_nat (length (layers (llama_base m))))%Z →
  p ∈ spec_trainable cfg m ↔ unfrozen_by cfg m p.
Proof.
  intros Hn. unfold spec_trainable, unfrozen_by, head_params, embedding_params,
    norm_params, last_blocks_params.
  rewrite (decoder_params_last_n cfg m p Hn).
  rewrite !elem_of_union, !elem_of_list_to_set.
  destruct (freeze_embedding cfg), (freeze_norm_layer cfg);
    rewrite ?elem_of_list_to_set; set_solver.
Qed.

(** C1. For every configuration whose [num_decoder_layers_to_unfreeze] lies
    between 0 and the number of decoder blocks, the factory returns, and
    the parameters left trainable are exactly the head, the embedding
    unless [freeze_embedding], the final norm unless [freeze_norm_layer],
    and the last [num_decoder_layers_to_unfreeze] decoder blocks; every
    other parameter of the model is frozen, and with 0 no decoder block
    adds anything to the first three. *)
Theorem create_llama32_classifier_trainable (cfg : FreezeConfig)
    (m : Llama32Classifier) (s0 : store) :
  (0 ≤ num_decoder_layers_to_unfreeze cfg
   ≤ Z.of_nat (length (layers (llama_base m))))%Z →
  ∃ s, create_llama32_classifier cfg m s0 = Ok s
       ∧ trainable m s = spec_trainable cfg m
       ∧ (∀ p, p ∈ parameters m → p ∉ spec_trainable cfg m →
               s !! p = Some false)
       ∧ (num_decoder_layers_to_unfreeze cfg = 0%Z →
          trainable m s
          = head_params m ∪ embedding_params cfg m ∪ norm_params cfg m).
Proof.
  intros Hn. exists (created_store cfg m s0).
  assert (trainable m (created_store cfg m s0) = spec_trainable cfg m) as Heq.
  { apply set_eq. intros p.
    by rewrite trainable_created_store, elem_of_spec_trainable. }
  split; [apply create_llama32_classifier_created; lia|].
  split; [done|]. split.
  - intros p Hp Hnot.
    destruct (lookup_created_store cfg m s0 p) as (_ & Hf & _).
    apply Hf; [|done]. by rewrite <- elem_of_spec_trainable.
  - intros H0. rewrite Heq. unfold spec_trainable, last_blocks_params, last_n.
    rewrite H0. simpl. rewrite Nat.sub_0_r, drop_all. simpl.
    set_solver.
Qed.

Lemma create_llama32_classifier_trainable_witness :
  (0 ≤ num_decoder_layers_to_unfreeze (config_with 2)
   ≤ Z.of_nat (length (layers (llama_base tiny_model))))%Z
  ∧ ∃ s, create_llama32_classifier (config_with 2) tiny_model
           (fresh_store tiny_model) = Ok s
         ∧ trainable tiny_model s = spec_trainable (config_with 2) tiny_model
         ∧ (∀ p, p ∈ parameters tiny_model →
                 p ∉ spec_trainable (config_with 2) tiny_model →
                 s !! p = Some false)
         ∧ (num_decoder_layers_to_unfreeze (config_with 2) = 0%Z →
            trainable tiny_model s
            = head_params tiny_model
              ∪ embedding_params (config_with 2) tiny_model
              ∪ norm_params (config_with 2) tiny_model).
Proof.
  split; [simpl; lia|].
  apply (create_llama32_classifier_trainable (config_with 2) tiny_model).
  simpl. lia.
Defined.

(** ** The freeze policy out of range *)

Lemma unfreeze_decoder_layers_index_error (cfg : FreezeConfig)
    (m : Llama32Classifier) (s : store) :
  (2 * Z.of_nat (length (layers (llama_base m)))
   < num_decoder_layers_to_unfreeze cfg)%Z →
  unfreeze_decoder_layers cfg m s = Raise IndexError.
Proof.
  intros Hn. unfold unfreeze_decoder_layers. simpl.
  rewrite decide_True by lia. unfold py_range.
  destruct (Z.to_nat _) as [|k] eqn:Hk; [lia|]. simpl.
  rewrite py_getitem_invalid; [done|]. unfold valid_index. lia.
Qed.

Lemma create_llama32_classifier_index_error (cfg : FreezeConfig)
    (m : Llama32Classifier) (s : store) :
  (2 * Z.of_nat (length (layers (llama_base m)))
   < num_decoder_layers_to_unfreeze cfg)%Z →
  create_llama32_classifier cfg m s = Raise IndexError.
Proof.
  intros Hn. unfold create_llama32_classifier. simpl.
  by apply unfreeze_decoder_layers_index_error.
Qed.

(** C2, as the code has it. When [num_decoder_layers_to_unfreeze] exceeds
    the number of decoder blocks the factory raises no configuration
    error: up to twice the number of blocks the negative indices wrap
    around and it returns with every decoder block trainable (next to the
    head and the unfrozen embedding and norm); beyond that it stops with
    an [IndexError] of the layer list. *)
Theorem create_llama32_classifier_out_of_range (cfg : FreezeConfig)
    (m : Llama32Classifier) (s0 : store) :
  (Z.of_nat (length (layers (llama_base m)))
   < num_decoder_layers_to_unfreeze cfg)%Z →
  ((num_decoder_layers_to_unfreeze cfg
    ≤ 2 * Z.of_nat (length (layers (llama_base m))))%Z →
   ∃ s, create_llama32_classifier cfg m s0 = Ok s
        ∧ trainable m s
          = head_params m ∪ embedding_params cfg m ∪ norm_params cfg m
            ∪ list_to_set (concat (layers (llama_base m))))
  ∧ ((2 * Z.of_nat (length (layers (llama_base m)))
      < num_decoder_layers_to_unfreeze cfg)%Z →
     create_llama32_classifier cfg m s0 = Raise IndexError).
Proof.
  intros Hlt. split; [|apply create_llama32_classifier_index_error].
  intros Hle. exists (created_store cfg m s0).
  split; [by apply create_llama32_classifier_created|].
  apply set_eq. intros p. rewrite trainable_created_store.
  unfold unfrozen_by, head_params, embedding_params, norm_params.
  rewrite (decoder_params_all cfg m p) by lia.
  rewrite !elem_of_union, !elem_of_list_to_set.
  destruct (freeze_embedding cfg), (freeze_norm_layer cfg);
    rewrite ?elem_of_list_to_set; set_solver.
Qed.

Lemma create_llama32_classifier_out_of_range_witness :
  (Z.of_nat (length (layers (llama_base tiny_model)))
   < num_decoder_layers_to_unfreeze default_config
   ≤ 2 * Z.of_nat (length (layers (llama_base tiny_model))))%Z
  ∧ (∃ s, create_llama32_classifier default_config tiny_model
            (fresh_store tiny_model) = Ok s
          ∧ trainable tiny_model s
            = head_params tiny_model
              ∪ embedding_params default_config tiny_model
              ∪ norm_params default_config tiny_model
              ∪ list_to_set (concat (layers (llama_base tiny_model))))
  ∧ (2 * Z.of_nat (length (layers (llama_base tiny_model)))
     < num_decoder_layers_to_unfreeze (config_with 7))%Z
  ∧ create_llama32_classifier (config_with 7) tiny_model (fresh_store tiny_model)
    = Raise IndexError.
Proof.
  split; [simpl; lia|]. split.
  - apply (create_llama32_classifier_out_of_range default_config tiny_model);
      simpl; lia.
  - split; [simpl; lia|].
    apply (create_llama32_classifier_out_of_range (config_with 7) tiny_model);
      simpl; lia.
Defined.

(** C2 as stated fails: with the default [num_decoder_layers_to_unfreeze]
    of 5 and a trunk of three decoder blocks the factory does not fail. *)
Lemma create_llama32_classifier_no_configuration_error :
  (Z.of_nat (length (layers (llama_base tiny_model)))
   < num_decoder_layers_to_unfreeze default_config)%Z
  ∧ ¬ fails (create_llama32_classifier default_config tiny_model
               (fresh_store tiny_model)).
Proof.
  split; [simpl; lia|].
  rewrite create_llama32_classifier_created by (simpl; lia).
  intros [e He]. discriminate He.
Qed.

(** ** The unfreeze branches only add *)

Lemma set_requires_grad_comm (ps qs : list param) (v : bool) (s : store) :
  set_requires_grad ps v (set_requires_grad qs v s)
  = set_requires_grad qs v (set_requires_grad ps v s).
Proof.
  apply map_eq. intros p. rewrite !lookup_set_requires_grad.
  by repeat destruct (decide _).
Qed.

Lemma unfreeze_layers_at_collect (ls : list (list param)) (idx : list Z) (s : store) :
  unfreeze_layers_at ls idx s
  = (ps ← collect_layers ls idx; Ok (set_requires_grad ps true s)).
Proof.
  revert s. induction idx as [|i idx IH]; intros s; simpl; [done|].
  destruct (py_getitem ls i) as [l|e]; simpl; [|done].
  rewrite IH. destruct (collect_layers ls idx) as [ps|e]; simpl; [|done].
  by rewrite set_requires_grad_app.
Qed.

Lemma branches_unfreezer (cfg : FreezeConfig) (m : Llama32Classifier) :
  Forall unfreezer (branches cfg m).
Proof.
  unfold branches. repeat apply Forall_cons_2; [| | | |apply Forall_nil_2].
  - by exists (Ok (classifier m)).
  - unfold unfreeze_embedding. destruct (freeze_embedding cfg); simpl.
    + by exists (Ok []).
    + by exists (Ok (embed_tokens (llama_base m))).
  - unfold unfreeze_norm. destruct (freeze_norm_layer cfg); simpl.
    + by exists (Ok []).
    + by exists (Ok (norm (llama_base m))).
  - exists (collect_layers (layers (llama_base m)) (decoder_indices cfg m)).
    intros s. rewrite unfreeze_decoder_layers_indices.
    apply unfreeze_layers_at_collect.
Qed.

Lemma unfreezer_only_sets_true (b : branch) (s s' : store) (p : param) :
  unfreezer b → b s = Ok s' → s' !! p = s !! p ∨ s' !! p = Some true.
Proof.
  intros [r Hr] Hb. rewrite Hr in Hb.
  destruct r as [ps|e]; simpl in Hb; [|discriminate].
  injection Hb as <-. rewrite lookup_set_requires_grad.
  destruct (decide _); auto.
Qed.

Lemma unfreezer_comm (b1 b2 : branch) (s : store) :
  unfreezer b1 → unfreezer b2 →
  (s1 ← b1 s; b2 s1) = (s2 ← b2 s; b1 s2).
Proof.
  intros [r1 H1] [r2 H2]. rewrite H1, H2.
  destruct r1 as [ps|[]], r2 as [qs|[]]; simpl; rewrite ?H1, ?H2; simpl; try done.
  by rewrite set_requires_grad_comm.
Qed.

Lemma run_branches_perm (bs bs' : list branch) :
  bs ≡ₚ bs' → Forall unfreezer bs → ∀ s, run_branches bs s = run_branches bs' s.
Proof.
  induction 1 as [|b bs bs' Hperm IH|b1 b2 bs|bs1 bs2 bs3 H12 IH12 H23 IH23];
    intros Hall s; simpl.
  - done.
  - apply Forall_cons_1 in Hall as [_ Hall].
    destruct (b s) as [s1|e]; simpl; [by apply IH | done].
  - apply Forall_cons_1 in Hall as [H2 [H1 _]%Forall_cons_1].
    pose proof (unfreezer_comm b2 b1 s H2 H1) as Hc.
    destruct (b2 s) as [s2|e2], (b1 s) as [s1|e1]; simpl in *.
    + destruct (b1 s2), (b2 s1); simplify_eq; done.
    + destruct (b1 s2); simplify_eq; done.
    + destruct (b2 s1); simplify_eq; done.
    + done.
  - rewrite IH12 by done. apply IH23. by rewrite <- H12.
Qed.

Lemma create_llama32_classifier_branches (cfg : FreezeConfig)
    (m : Llama32Classifier) (s : store) :
  create_llama32_classifier cfg m s
  = run_branches (branches cfg m) (freeze_all m s).
Proof.
  unfold create_llama32_classifier, branches. simpl.
  by destruct (unfreeze_decoder_layers cfg m _).
Qed.

Lemma create_llama32_classifier_Ok_inv (cfg : FreezeConfig)
    (m : Llama32Classifier) (s s' : store) :
  create_llama32_classifier cfg m s = Ok s' →
  (num_decoder_layers_to_unfreeze cfg
   ≤ 2 * Z.of_nat (length (layers (llama_base m))))%Z
  ∧ s' = created_store cfg m s.
Proof.
  intros Hc.
  destruct (decide (num_decoder_layers_to_unfreeze cfg
                    ≤ 2 * Z.of_nat (length (layers (llama_base m))))%Z) as [Hn|Hn].
  - split; [done|]. rewrite create_llama32_classifier_created in Hc by done.
    by injection Hc.
  - rewrite create_llama32_classifier_index_error in Hc by lia. discriminate.
Qed.

Lemma trainable_unfrozen_list (m : Llama32Classifier) (s0 : store)
    (ps : list param) :
  (∀ p, p ∈ ps → p ∈ parameters m) →
  trainable m (set_requires_grad ps true (freeze_all m s0)) = list_to_set ps.
Proof.
  intros Hsub. apply set_eq. intros p. unfold trainable, freeze_all.
  rewrite elem_of_filter, !elem_of_list_to_set, !lookup_set_requires_grad.
  specialize (Hsub p).
  repeat destruct (decide _); intuition congruence.
Qed.

Lemma trainable_frozen (m : Llama32Classifier) (s0 : store) :
  trainable m (freeze_all m s0) = ∅.
Proof. apply (trainable_unfrozen_list m s0 []). by intros p ?%elem_of_nil. Qed.

Lemma contributions_created (cfg : FreezeConfig) (m : Llama32Classifier)
    (s0 : store) (p : param) :
  (num_decoder_layers_to_unfreeze cfg
   ≤ 2 * Z.of_nat (length (layers (llama_base m))))%Z →
  p ∈ ⋃ (contribution m (freeze_all m s0) <$> branches cfg m)
  ↔ unfrozen_by cfg m p.
Proof.
  intros Hn. unfold branches, contribution. simpl.
  rewrite unfreeze_decoder_layers_indices.
  rewrite unfreeze_layers_at_valid by by apply decoder_indices_valid.
  fold (decoder_params cfg m).
  unfold unfreeze_classifier, unfreeze_embedding, unfreeze_norm, unfrozen_by.
  assert (∀ q, q ∈ classifier m → q ∈ parameters m) as Hcls.
  { intros q. unfold parameters. rewrite !elem_of_app. auto. }
  assert (∀ q, q ∈ embed_tokens (llama_base m) → q ∈ parameters m) as Hemb.
  { intros q. unfold parameters, base_parameters. rewrite !elem_of_app. auto. }
  assert (∀ q, q ∈ norm (llama_base m) → q ∈ parameters m) as Hnorm.
  { intros q. unfold parameters, base_parameters. rewrite !elem_of_app. auto. }
  pose proof (decoder_params_parameters cfg m) as Hdec.
  rewrite !elem_of_union.
  rewrite (trainable_unfrozen_list m s0 _ Hcls).
  rewrite (trainable_unfrozen_list m s0 _ Hdec).
  destruct (freeze_embedding cfg), (freeze_norm_layer cfg); simpl;
    rewrite ?trainable_frozen, ?(trainable_unfrozen_list m s0 _ Hemb),
      ?(trainable_unfrozen_list m s0 _ Hnorm), !elem_of_list_to_set;
    set_solver.
Qed.

Lemma unfrozen_by_mono (cfg cfg' : FreezeConfig) (m : Llama32Classifier) (p : param) :
  unfreezes_more cfg cfg' → unfrozen_by cfg m p → unfrozen_by cfg' m p.
Proof.
  intros (Hemb & Hnorm & Hn). unfold unfrozen_by.
  intros [Hp | [[Hf Hp] | [[Hf Hp] | Hp]]]; [by left | | |].
  - right; left. split; [|done].
    destruct (freeze_embedding cfg'); [|done]. by rewrite Hemb in Hf.
  - right; right; left. split; [|done].
    destruct (freeze_norm_layer cfg'); [|done]. by rewrite Hnorm in Hf.
  - right; right; right.
    apply elem_of_decoder_params in Hp as (i & Hi & Hp).
    apply elem_of_decoder_params. exists i. split; [|done].
    unfold decoder_indices in *. simpl in *.
    destruct (decide (num_decoder_layers_to_unfreeze cfg > 0)%Z);
      [|by apply elem_of_nil in Hi].
    rewrite decide_True by lia.
    apply elem_of_py_range in Hi. apply elem_of_py_range. lia.
Qed.

(** ** The entry point: who calls the tracker *)

Import Main.

(** The guard of line 121 keeps [wandb.init] to the coordinator. *)
Lemma main_init_guarded (nprocs rank : nat) (train : TrainArgs → list call)
    (project name : string) :
  rank ≠ 0 →
  (∀ args, wandb_init project name ∉ train args) →
  wandb_init project name ∉ main nprocs rank train.
Proof.
  intros Hrank Htrain. unfold main, is_main_process. simpl.
  rewrite bool_decide_eq_false_2 by done. simpl.
  rewrite !elem_of_cons, elem_of_app, list_elem_of_singleton.
  specialize (Htrain (train_args (make_accelerator nprocs rank))).
  naive_solver.
Qed.

(** C8 fails on line 144: [wandb.finish()] has no such guard, so a process
    that is not the coordinator calls the tracker as the last thing it
    does, whatever [train] did. *)
Theorem main_worker_calls_wandb_finish (nprocs r : nat)
    (train : TrainArgs → list call) :
  is_main_process (make_accelerator nprocs (S r)) = false
  ∧ tracker_call wandb_finish = true
  ∧ last (main nprocs (S r) train) = Some wandb_finish.
Proof.
  split; [done|]. split; [done|].
  unfold main. cbv zeta. rewrite !app_assoc. apply last_snoc.
Qed.

(** X7. On every process and whatever [train] does, the first calls of
    [main] seed the generators with 42 and pin the cuDNN kernels
    (benchmark off, deterministic on); the model, the dataloaders and the
    optimizer are built after them. *)
Lemma main_seeds_first (nprocs rank : nat) (train : TrainArgs → list call) :
  ∃ before after,
    main nprocs rank train
    = [set_seed 42; set_cudnn_benchmark false; set_cudnn_deterministic true]
      ++ before ++ create_qwen25_classifier_with_lora MODEL_ID 8 :: after
    ∧ create_dataloaders BATCH_SIZE true ∈ after
    ∧ new_optimizer ∈ after
    ∧ (∀ c, c ∈ before →
            c ≠ create_dataloaders BATCH_SIZE true ∧ c ≠ new_optimizer).
Proof.
  eexists [_; _; _; _; _; _], _. split; [reflexivity|].
  split; [set_solver|]. split; [set_solver|].
  intros c Hc. repeat (apply elem_of_cons in Hc as [->|Hc]; [done|]).
  by apply elem_of_nil in Hc.
Qed.

(** ** The epoch loop: checkpoints and non-finite losses *)

Section LoopFacts.
Import Orchestrator.
Context {W B : Type}.
Variable loss_fn : W → B → loss_value.
Variable gradient_step : W → B → W.
Variable threshold : nat.

Lemma checkpoint_decision_spec (cadence epochs i : nat) :
  checkpoint_decision cadence epochs i = true
  ↔ i mod cadence = 0 ∨ i = epochs.
Proof.
  unfold checkpoint_decision.
  rewrite orb_true_iff, !bool_decide_eq_true. done.
Qed.

Lemma train_step_weights (st : epoch_state) (b : B) :
  weights (train_step loss_fn gradient_step st b)
  = if is_nonfinite (loss_fn (weights st) b)
    then weights st else gradient_step (weights st) b.
Proof. unfold train_step. by destruct (loss_fn (weights st) b). Qed.

Lemma train_step_count (st : epoch_state) (b : B) :
  nonfinite_count (train_step loss_fn gradient_step st b)
  = (if is_nonfinite (loss_fn (weights st) b) then 1 else 0)
    + nonfinite_count st.
Proof. unfold train_step. by destruct (loss_fn (weights st) b). Qed.

(** The weights of the epoch take the steps of the finite losses only. *)
Lemma train_steps_weights (st : epoch_state) (batches : list B) :
  weights (train_steps loss_fn gradient_step st batches)
  = finite_steps_weights loss_fn gradient_step (weights st) batches.
Proof.
  revert st. induction batches as [|b batches IH]; intros st; simpl; [done|].
  by rewrite IH, train_step_weights.
Qed.

(** The counter of the epoch counts the non-finite losses observed. *)
Lemma train_steps_count (st : epoch_state) (batches : list B) :
  nonfinite_count (train_steps loss_fn gradient_step st batches)
  = nonfinite_count st
    + nonfinite_losses (observed_losses loss_fn gradient_step (weights st) batches).
Proof.
  revert st. induction batches as [|b batches IH]; intros st; simpl.
  - unfold nonfinite_losses. simpl. lia.
  - rewrite IH, train_step_weights, train_step_count.
    unfold nonfinite_losses. rewrite filter_cons.
    destruct (loss_fn (weights st) b); simpl; lia.
Qed.

Lemma finite_steps_weights_app (w : W) (bs1 bs2 : list B) :
  finite_steps_weights loss_fn gradient_step w (bs1 ++ bs2)
  = finite_steps_weights loss_fn gradient_step
      (finite_steps_weights loss_fn gradient_step w bs1) bs2.
Proof. revert w. induction bs1 as [|b bs1 IH]; intros w; simpl; [done | apply IH]. Qed.

Lemma observed_losses_app (w : W) (bs1 bs2 : list B) :
  observed_losses loss_fn gradient_step w (bs1 ++ bs2)
  = observed_losses loss_fn gradient_step w bs1
    ++ observed_losses loss_fn gradient_step
         (finite_steps_weights loss_fn gradient_step w bs1) bs2.
Proof.
  revert w. induction bs1 as [|b bs1 IH]; intros w; simpl; [done|].
  by rewrite IH.
Qed.

Lemma nonfinite_losses_app (ls1 ls2 : list loss_value) :
  nonfinite_losses (ls1 ++ ls2) = nonfinite_losses ls1 + nonfinite_losses ls2.
Proof. unfold nonfinite_losses. by rewrite filter_app, length_app. Qed.

(** How an epoch ends, read off the losses it observes. *)
Lemma train_epoch_spec (w : W) (batches : list B) :
  train_epoch loss_fn gradient_step threshold w batches
  = if decide (threshold
               < nonfinite_losses (observed_losses loss_fn gradient_step w batches))
    then inl NumericalInstabilityError
    else inr (finite_steps_weights loss_fn gradient_step w batches).
Proof.
  unfold train_epoch. cbv zeta. rewrite train_steps_count, train_steps_weights.
  simpl. by repeat case_decide.
Qed.

(** The checkpoints of a run are those of the epochs that ran to their
    end, whichever way the run ends. *)
Lemma run_epochs_checkpoints (cadence epochs : nat) (data : nat → list B)
    (todo : list nat) (w : W) :
  checkpoints
    (run_epochs loss_fn gradient_step threshold cadence epochs data todo w)
  = filter (λ i, i mod cadence = 0 ∨ i = epochs)
      (completed_epochs loss_fn gradient_step threshold data todo w).
Proof.
  revert w. induction todo as [|i todo IH]; intros w; simpl; [done|].
  rewrite train_epoch_spec. case_decide; simpl; [done|].
  rewrite IH, filter_cons.
  destruct (checkpoint_decision cadence epochs i) eqn:Hd.
  - apply checkpoint_decision_spec in Hd. by rewrite decide_True.
  - rewrite decide_False; [done|].
    intros Hi%checkpoint_decision_spec. congruence.
Qed.

Lemma run_epochs_completed_all (cadence epochs : nat) (data : nat → list B)
    (todo : list nat) (w w' : W) :
  outcome (run_epochs loss_fn gradient_step threshold cadence epochs data todo w)
  = inr w' →
  completed_epochs loss_fn gradient_step threshold data todo w = todo.
Proof.
  revert w. induction todo as [|i todo IH]; intros w; simpl; [done|].
  rewrite train_epoch_spec. case_decide; simpl; [discriminate|].
  intros Hout. by rewrite (IH _ Hout).
Qed.

Lemma completed_epochs_prefix (data : nat → list B) (todo : list nat) (w : W) :
  completed_epochs loss_fn gradient_step threshold data todo w `prefix_of` todo.
Proof.
  revert w. induction todo as [|i todo IH]; intros w; simpl; [done|].
  case_decide; [apply prefix_nil | apply prefix_cons, IH].
Qed.

(** A run returns the weights of all its epochs when none is over the
    threshold, and the fatal error as soon as one is. *)
Lemma run_epochs_outcome (cadence epochs : nat) (data : nat → list B)
    (todo : list nat) (w : W) :
  (Forall (λ ls, ¬ over_threshold threshold ls)
     (epoch_losses loss_fn gradient_step data todo w) →
   outcome (run_epochs loss_fn gradient_step threshold cadence epochs data todo w)
   = inr (final_weights loss_fn gradient_step data todo w))
  ∧ (Exists (over_threshold threshold)
       (epoch_losses loss_fn gradient_step data todo w) →
     outcome (run_epochs loss_fn gradient_step threshold cadence epochs data todo w)
     = inl NumericalInstabilityError).
Proof.
  revert w. induction todo as [|i todo IH]; intros w; simpl.
  - split; [done | by intros ?%Exists_nil].
  - rewrite train_epoch_spec. unfold over_threshold in *.
    destruct (IH (finite_steps_weights loss_fn gradient_step w (data i)))
      as [IHok IHfatal].
    case_decide as Hover; simpl.
    + split; [|done]. intros [Hhead _]%Forall_cons_1. done.
    + split.
      * intros [_ Htail]%Forall_cons_1. by apply IHok.
      * intros [Hhead|Htail]%Exists_cons; [done | by apply IHfatal].
Qed.
End LoopFacts.

(** C4. In every run with a positive cadence, whether it completes or
    fails, a checkpoint is requested after exactly those epochs that ran to
    their end for which [i mod cadence = 0] or [i] is the final epoch, once
    each and in order; these epochs are an initial stretch of [1..epochs],
    all of them in a run that completes, and with the cadence 2 and the 5
    epochs [main] passes a completing run saves after the epochs 2, 4 and
    5. *)
Theorem checkpoint_cadence {W B : Type}
    (loss_fn : W → B → Orchestrator.loss_value) (gradient_step : W → B → W)
    (threshold : nat) (args : TrainArgs) (data : nat → list B) (w0 : W) :
  0 < checkpoint_every_n_epochs args →
  Orchestrator.checkpoints
    (Orchestrator.train loss_fn gradient_step threshold args data w0)
  = filter (λ i, i mod checkpoint_every_n_epochs args = 0 ∨ i = epochs args)
      (completed_epochs loss_fn gradient_step threshold data
         (seq 1 (epochs args)) w0)
  ∧ completed_epochs loss_fn gradient_step threshold data
      (seq 1 (epochs args)) w0 `prefix_of` seq 1 (epochs args)
  ∧ (∀ w', Orchestrator.outcome
             (Orchestrator.train loss_fn gradient_step threshold args data w0)
           = inr w' →
           completed_epochs loss_fn gradient_step threshold data
             (seq 1 (epochs args)) w0 = seq 1 (epochs args)
           ∧ (checkpoint_every_n_epochs args = 2 → epochs args = 5 →
              Orchestrator.checkpoints
                (Orchestrator.train loss_fn gradient_step threshold args data w0)
              = [2; 4; 5])).
Proof.
  intros Hcadence. unfold Orchestrator.train.
  rewrite run_epochs_checkpoints.
  split; [done|]. split; [apply completed_epochs_prefix|].
  intros w' Hout. rewrite (run_epochs_completed_all _ _ _ _ _ _ _ _ _ Hout).
  split; [done|]. by intros -> ->.
Qed.

Lemma checkpoint_cadence_witness :
  0 < checkpoint_every_n_epochs coordinator_args
  ∧ Orchestrator.outcome steady_run = inr 5
  ∧ Orchestrator.checkpoints steady_run = [2; 4; 5]
  ∧ Orchestrator.outcome late_failure_run
    = inl Orchestrator.NumericalInstabilityError
  ∧ Orchestrator.checkpoints late_failure_run = [2; 4].
Proof.
  assert (0 < checkpoint_every_n_epochs coordinator_args) as Hcadence
    by (simpl; lia).
  assert (Orchestrator.outcome steady_run = inr 5) as Hout by reflexivity.
  split; [exact Hcadence|]. split; [exact Hout|].
  destruct (checkpoint_cadence steady_loss counting_step 0 coordinator_args
              (λ _, [()]) 0 Hcadence) as (_ & _ & Hdone).
  destruct (Hdone 5 Hout) as [_ Hmain].
  split; [by apply Hmain|]. split; [reflexivity|].
  destruct (checkpoint_cadence marked_loss marked_step 1 coordinator_args
              late_failure_data 0 Hcadence) as (Hsaved & _ & _).
  unfold late_failure_run. rewrite Hsaved. reflexivity.
Defined.

(** C7. A training step whose loss is not finite leaves every weight as
    it was and the epoch goes on: its weights at the end are those of the
    epoch without that batch, and its count of non-finite losses is one
    more.  An epoch that observes no more non-finite losses than the
    threshold returns the weights of its finite steps, one that observes
    more fails with a fatal error; a run returns when no epoch is over the
    threshold and hands the fatal error to its caller when any epoch is. *)
Theorem nonfinite_loss_policy {W B : Type}
    (loss_fn : W → B → Orchestrator.loss_value) (gradient_step : W → B → W)
    (threshold : nat) (w : W) (pre : list B) (b : B) (post : list B) :
  loss_fn (finite_steps_weights loss_fn gradient_step w pre) b
  = Orchestrator.NonFinite →
  let st0 := {| Orchestrator.weights := w; Orchestrator.nonfinite_count := 0 |} in
  let st := Orchestrator.train_steps loss_fn gradient_step st0 pre in
  Orchestrator.weights (Orchestrator.train_step loss_fn gradient_step st b)
  = Orchestrator.weights st
  ∧ Orchestrator.weights
      (Orchestrator.train_steps loss_fn gradient_step st0 (pre ++ b :: post))
    = Orchestrator.weights
        (Orchestrator.train_steps loss_fn gradient_step st0 (pre ++ post))
  ∧ Orchestrator.nonfinite_count
      (Orchestrator.train_steps loss_fn gradient_step st0 (pre ++ b :: post))
    = S (Orchestrator.nonfinite_count
           (Orchestrator.train_steps loss_fn gradient_step st0 (pre ++ post)))
  ∧ (∀ w1 batches,
       (¬ over_threshold threshold
            (Orchestrator.observed_losses loss_fn gradient_step w1 batches) →
        Orchestrator.train_epoch loss_fn gradient_step threshold w1 batches
        = inr (finite_steps_weights loss_fn gradient_step w1 batches))
       ∧ (over_threshold threshold
            (Orchestrator.observed_losses loss_fn gradient_step w1 batches) →
          Orchestrator.train_epoch loss_fn gradient_step threshold w1 batches
          = inl Orchestrator.NumericalInstabilityError))
  ∧ (∀ cadence epochs data todo w1,
       (Forall (λ ls, ¬ over_threshold threshold ls)
          (epoch_losses loss_fn gradient_step data todo w1) →
        Orchestrator.outcome
          (Orchestrator.run_epochs loss_fn gradient_step threshold cadence
             epochs data todo w1)
        = inr (final_weights loss_fn gradient_step data todo w1))
       ∧ (Exists (over_threshold threshold)
            (epoch_losses loss_fn gradient_step data todo w1) →
          Orchestrator.outcome
            (Orchestrator.run_epochs loss_fn gradient_step threshold cadence
               epochs data todo w1)
          = inl Orchestrator.NumericalInstabilityError)).
Proof.
  intros Hloss st0 st. subst st st0.
  split; [|split; [|split; [|split]]].
  - rewrite train_step_weights, train_steps_weights.
    cbn [Orchestrator.weights]. by rewrite Hloss.
  - rewrite !train_steps_weights, !finite_steps_weights_app.
    cbn [Orchestrator.weights finite_steps_weights]. by rewrite Hloss.
  - rewrite !train_steps_count. cbn [Orchestrator.weights].
    rewrite !observed_losses_app, !nonfinite_losses_app.
    cbn [Orchestrator.observed_losses]. rewrite Hloss.
    change (Orchestrator.NonFinite :: ?ls) with ([Orchestrator.NonFinite] ++ ls).
    rewrite nonfinite_losses_app. unfold Orchestrator.nonfinite_losses at 2.
    simpl. lia.
  - intros w1 batches. rewrite train_epoch_spec. unfold over_threshold.
    split; intros Hcase; case_decide; done.
  - intros cadence epochs data todo w1. apply run_epochs_outcome.
Qed.

Lemma nonfinite_loss_policy_witness :
  marked_loss (finite_steps_weights marked_loss marked_step 3 [false]) true
  = Orchestrator.NonFinite
  ∧ Orchestrator.weights
      (Orchestrator.train_steps marked_loss marked_step marked_state
         ([false] ++ true :: [false])) = 5
  ∧ Orchestrator.nonfinite_count
      (Orchestrator.train_steps marked_loss marked_step marked_state
         ([false] ++ true :: [false])) = 1
  ∧ Orchestrator.train_epoch marked_loss marked_step 1 3 [false; true; false]
    = inr 5
  ∧ Orchestrator.train_epoch marked_loss marked_step 1 3 [true; false; true]
    = inl Orchestrator.NumericalInstabilityError
  ∧ Orchestrator.outcome late_failure_run
    = inl Orchestrator.NumericalInstabilityError.
Proof.
  destruct (nonfinite_loss_policy marked_loss marked_step 1 3 [false] true [false])
    as (_ & Hw & Hc & Hepoch & Hrun); [reflexivity|].
  split; [reflexivity|].
  split; [exact (eq_trans Hw eq_refl)|]. split; [exact (eq_trans Hc eq_refl)|].
  split; [apply (Hepoch 3 [false; true; false]); vm_compute; lia|].
  split; [apply (Hepoch 3 [true; false; true]); vm_compute; lia|].
  apply (Hrun 2 5 late_failure_data (seq 1 5) 0).
  do 4 apply Exists_cons_tl. apply Exists_cons_hd. vm_compute. lia.
Defined.

(** ** Sharding a global batch *)

Lemma concat_chunks {A : Type} (c n : nat) (l : list A) :
  length l = n * c →
  concat ((λ k, take c (drop (k * c) l)) <$> seq 0 n) = l.
Proof.
  revert l. induction n as [|n IH]; intros l Hl.
  - by rewrite (nil_length_inv l Hl).
  - cbn [seq fmap list_fmap concat]. rewrite <- fmap_S_seq, <- list_fmap_compose.
    rewrite (list_fmap_ext _ (λ k, take c (drop (k * c) (drop c l)))).
    + rewrite IH, drop_0, take_drop; [done|]. rewrite length_drop. lia.
    + intros _ k _. simpl. by rewrite drop_drop.
Qed.

Lemma divide_quotient (W n : nat) : 1 ≤ W → (W | n) → n = W * (n / W).
Proof.
  intros HW [z ->]. rewrite Nat.div_mul by lia. lia.
Qed.

Lemma concat_device_shards {A : Type} (W : nat) (batch : list A) :
  1 ≤ W → (W | length batch) →
  concat (DataParallel.device_shards W batch) = batch.
Proof.
  intros HW Hdiv. unfold DataParallel.device_shards, DataParallel.shard.
  apply concat_chunks. pose proof (divide_quotient W _ HW Hdiv). lia.
Qed.

Lemma length_shard {A : Type} (W k : nat) (batch : list A) :
  1 ≤ W → (W | length batch) → k < W →
  length (DataParallel.shard W k batch) = length batch / W.
Proof.
  intros HW Hdiv Hk. unfold DataParallel.shard.
  rewrite length_take, length_drop.
  pose proof (divide_quotient W _ HW Hdiv) as Hq.
  set (c := length batch / W) in *. nia.
Qed.

Lemma device_shards_lengths {A : Type} (W : nat) (batch : list A) :
  1 ≤ W → (W | length batch) →
  Forall (λ sh, length sh = length batch / W) (DataParallel.device_shards W batch).
Proof.
  intros HW Hdiv. apply Forall_forall. intros sh.
  unfold DataParallel.device_shards.
  intros (k & -> & Hk%elem_of_seq)%list_elem_of_fmap.
  apply length_shard; [done..|lia].
Qed.




(** ** Averaging gradients across devices *)

Section GradientFacts.
Import DataParallel.
Local Open Scope Qc_scope.

Lemma Qc_sum_cons (x : Qc) (xs : list Qc) : Qc_sum (x :: xs) = x + Qc_sum xs.
Proof. done. Qed.

Lemma Qc_sum_app (xs ys : list Qc) : Qc_sum (xs ++ ys) = Qc_sum xs + Qc_sum ys.
Proof.
  induction xs as [|x xs IH].
  - by rewrite app_nil_l, Qcplus_0_l.
  - rewrite <- app_comm_cons, !Qc_sum_cons, IH. ring.
Qed.

Lemma Qc_sum_concat {A : Type} (g : A → Qc) (ls : list (list A)) :
  Qc_sum (g <$> concat ls) = Qc_sum ((λ l, Qc_sum (g <$> l)) <$> ls).
Proof.
  induction ls as [|l ls IH]; [done|].
  cbn [concat]. by rewrite fmap_app, Qc_sum_app, IH, fmap_cons, Qc_sum_cons.
Qed.

Lemma Qc_sum_scale {A : Type} (f : A → Qc) (c : Qc) (l : list A) :
  Qc_sum ((λ x, f x * c) <$> l) = Qc_sum (f <$> l) * c.
Proof.
  induction l as [|x l IH].
  - change (0 = 0 * c). ring.
  - rewrite !fmap_cons, !Qc_sum_cons, IH. ring.
Qed.

Lemma Qc_of_nat_mul (n m : nat) : Qc_of_nat (n * m) = Qc_of_nat n * Qc_of_nat m.
Proof. unfold Qc_of_nat. by rewrite Nat2Z.inj_mul, Z2Qc_inj_mul. Qed.

Context {A K : Type}.
Variable example_grad : K → A → Qc.
Variable optimizer_step : K → Qc → Qc → Qc.

(** The mean of the shard gradients is the gradient of the global batch. *)
Lemma averaged_grad_batch_grad (W : nat) (p : K) (batch : list A) :
  (1 ≤ W)%nat → (W | length batch)%nat →
  averaged_grad example_grad W p batch = batch_grad example_grad p batch.
Proof.
  intros HW Hdiv. unfold averaged_grad, batch_grad, Qc_mean.
  pose proof (device_shards_lengths W batch HW Hdiv) as Hlen.
  rewrite (list_fmap_ext _
    (λ sh, Qc_sum (example_grad p <$> sh) * / Qc_of_nat (length batch / W))
    (device_shards W batch)).
  - rewrite Qc_sum_scale, <- Qc_sum_concat, concat_device_shards by done.
    rewrite !length_fmap. unfold device_shards at 1.
    rewrite length_fmap, length_seq.
    rewrite (divide_quotient W (length batch) HW Hdiv) at 2.
    rewrite Qc_of_nat_mul. unfold Qcdiv. rewrite Qcinv_mult_distr. ring.
  - intros i sh Hsh. rewrite length_fmap.
    by rewrite (proj1 (Forall_lookup _ _) Hlen i sh Hsh).
Qed.
End GradientFacts.

(** C3. For every number [W >= 1] of workers that divides the global
    batch, a step whose gradient is the average over the workers of the
    gradients of their shards updates every coordinate of the weights as
    a step of one worker on the whole batch does; the update is the same
    for every such [W].  Numbers are exact rationals. *)
Theorem data_parallel_same_update {A K : Type} (example_grad : K → A → Qc)
    (optimizer_step : K → Qc → Qc → Qc) (W : nat) (θ : K → Qc) (p : K)
    (batch : list A) :
  1 ≤ W → (W | length batch) →
  DataParallel.averaged_grad example_grad W p batch
  = DataParallel.batch_grad example_grad p batch
  ∧ DataParallel.data_parallel_update example_grad optimizer_step W θ p batch
    = DataParallel.single_worker_update example_grad optimizer_step θ p batch
  ∧ (∀ W', 1 ≤ W' → (W' | length batch) →
       DataParallel.data_parallel_update example_grad optimizer_step W' θ p batch
       = DataParallel.data_parallel_update example_grad optimizer_step W θ p batch).
Proof.
  intros HW Hdiv.
  unfold DataParallel.data_parallel_update, DataParallel.single_worker_update.
  rewrite (averaged_grad_batch_grad example_grad W p batch HW Hdiv).
  split; [done|]. split; [done|].
  intros W' HW' Hdiv'.
  by rewrite (averaged_grad_batch_grad example_grad W' p batch HW' Hdiv').
Qed.

Lemma data_parallel_same_update_witness :
  (2 | length toy_batch)
  ∧ DataParallel.averaged_grad toy_grad 2 () toy_batch = Qc_of_Z 3
  ∧ DataParallel.data_parallel_update toy_grad sgd_step 2 toy_weights () toy_batch
    = DataParallel.single_worker_update toy_grad sgd_step toy_weights () toy_batch.
Proof.
  assert (2 | length toy_batch) as Hdiv by (exists 2; reflexivity).
  destruct (data_parallel_same_update toy_grad sgd_step 2 toy_weights () toy_batch)
    as (Hgrad & Hupd & _); [lia | exact Hdiv |].
  split; [exact Hdiv|]. split; [|exact Hupd].
  rewrite Hgrad. by apply Qc_is_canon.
Defined.

(** ** Reducing confusion counts across devices *)

Section MetricFacts.
Import MetricAggregator.










End MetricFacts.







(** ** The freeze policy: further behaviour of the factory *)

Lemma created_store_lookup_eq (cfg cfg' : FreezeConfig) (m : Llama32Classifier)
    (s s' : store) (p : param) :
  (unfrozen_by cfg m p ↔ unfrozen_by cfg' m p) →
  (p ∉ parameters m → s !! p = s' !! p) →
  created_store cfg m s !! p = created_store cfg' m s' !! p.
Proof.
  intros Hiff Hout.
  destruct (lookup_created_store cfg m s p) as (Ht & Hf & Ho).
  destruct (lookup_created_store cfg' m s' p) as (Ht' & Hf' & Ho').
  destruct (decide (unfrozen_by cfg m p)) as [Hu|Hu].
  - by rewrite Ht, Ht' by tauto.
  - destruct (decide (p ∈ parameters m)) as [Hp|Hp].
    + by rewrite Hf, Hf' by tauto.
    + rewrite Ho, Ho' by done. by apply Hout.
Qed.

Lemma decoder_params_nonpositive (cfg : FreezeConfig) (m : Llama32Classifier) :
  (num_decoder_layers_to_unfreeze cfg ≤ 0)%Z → decoder_params cfg m = [].
Proof.
  intros Hn. unfold decoder_params, decoder_indices. simpl.
  by rewrite decide_False by lia.
Qed.

(** From the block count up to twice as much, the loop visits every block. *)
Lemma decoder_params_full (cfg : FreezeConfig) (m : Llama32Classifier) (p : param) :
  (Z.of_nat (length (layers (llama_base m)))
   ≤ num_decoder_layers_to_unfreeze cfg
   ≤ 2 * Z.of_nat (length (layers (llama_base m))))%Z →
  p ∈ decoder_params cfg m ↔ p ∈ concat (layers (llama_base m)).
Proof.
  intros Hn.
  destruct (decide (num_decoder_layers_to_unfreeze cfg
                    = Z.of_nat (length (layers (llama_base m))))) as [Heq|Hne].
  - rewrite decoder_params_last_n by lia.
    unfold last_n. by rewrite Heq, Nat2Z.id, Nat.sub_diag, drop_0.
  - apply decoder_params_all. lia.
Qed.

Lemma elem_of_policy_sets (cfg : FreezeConfig) (m : Llama32Classifier) (p : param) :
  p ∈ head_params m ∪ embedding_params cfg m ∪ norm_params cfg m
  ↔ p ∈ classifier m
    ∨ (freeze_embedding cfg = false ∧ p ∈ embed_tokens (llama_base m))
    ∨ (freeze_norm_layer cfg = false ∧ p ∈ norm (llama_base m)).
Proof.
  unfold head_params, embedding_params, norm_params.
  rewrite !elem_of_union, !elem_of_list_to_set.
  destruct (freeze_embedding cfg), (freeze_norm_layer cfg);
    rewrite ?elem_of_list_to_set; set_solver.
Qed.

Lemma elem_of_decoder_blocks_params (cfg : FreezeConfig)
    (m : Llama32Classifier) (p : param) :
  (num_decoder_layers_to_unfreeze cfg
   ≤ 2 * Z.of_nat (length (layers (llama_base m))))%Z →
  p ∈ decoder_params cfg m ↔ p ∈ decoder_blocks_params cfg m.
Proof.
  intros Hn. unfold decoder_blocks_params, last_blocks_params.
  rewrite elem_of_list_to_set.
  destruct (decide (num_decoder_layers_to_unfreeze cfg ≤ 0)%Z) as [H0|H0].
  - rewrite decoder_params_nonpositive by done.
    replace (Z.to_nat _) with 0 by lia.
    unfold last_n. by rewrite Nat.sub_0_r, drop_all.
  - destruct (decide (num_decoder_layers_to_unfreeze cfg
                      ≤ Z.of_nat (length (layers (llama_base m))))%Z) as [Hle|Hgt].
    + rewrite decoder_params_last_n by lia. by rewrite Z.min_l by done.
    + rewrite decoder_params_full by lia. rewrite Z.min_r by lia.
      unfold last_n. by rewrite Nat2Z.id, Nat.sub_diag, drop_0.
Qed.

(** What each branch alone unfreezes, as explicit sets. *)
Lemma contributions_explicit (cfg : FreezeConfig) (m : Llama32Classifier)
    (s0 : store) :
  (num_decoder_layers_to_unfreeze cfg
   ≤ 2 * Z.of_nat (length (layers (llama_base m))))%Z →
  contribution m (freeze_all m s0) <$> branches cfg m
  = [ head_params m; embedding_params cfg m; norm_params cfg m;
      decoder_blocks_params cfg m ].
Proof.
  intros Hn.
  assert (∀ q, q ∈ classifier m → q ∈ parameters m) as Hcls.
  { intros q. unfold parameters. rewrite !elem_of_app. auto. }
  assert (∀ q, q ∈ embed_tokens (llama_base m) → q ∈ parameters m) as Hemb.
  { intros q. unfold parameters, base_parameters. rewrite !elem_of_app. auto. }
  assert (∀ q, q ∈ norm (llama_base m) → q ∈ parameters m) as Hnorm.
  { intros q. unfold parameters, base_parameters. rewrite !elem_of_app. auto. }
  unfold branches, contribution. cbn [fmap list_fmap].
  rewrite unfreeze_decoder_layers_indices.
  rewrite unfreeze_layers_at_valid by by apply decoder_indices_valid.
  fold (decoder_params cfg m).
  rewrite (trainable_unfrozen_list m s0 _ (decoder_params_parameters cfg m)).
  unfold unfreeze_classifier, unfreeze_embedding, unfreeze_norm,
    head_params, embedding_params, norm_params.
  rewrite (trainable_unfrozen_list m s0 _ Hcls).
  repeat f_equal.
  - destruct (freeze_embedding cfg); simpl;
      [apply trainable_frozen | by apply trainable_unfrozen_list].
  - destruct (freeze_norm_layer cfg); simpl;
      [apply trainable_frozen | by apply trainable_unfrozen_list].
  - apply set_eq. intros p.
    by rewrite elem_of_list_to_set, elem_of_decoder_blocks_params.
Qed.

(** C9. The first loop freezes every parameter; each of the four branches
    that follow (head, embedding, norm, decoder layers) leaves a flag as
    it was or sets it.  So what the branches unfreeze alone are the head,
    the embedding unless frozen, the norm unless frozen and the requested
    last decoder blocks; the final trainable set is exactly their union;
    the branches can run in any order with the same flags; and a
    configuration that unfreezes more keeps trainable whatever was
    trainable before. *)
Theorem unfreeze_branches_accumulate (cfg : FreezeConfig)
    (m : Llama32Classifier) (s0 s' : store) :
  create_llama32_classifier cfg m s0 = Ok s' →
  trainable m (freeze_all m s0) = ∅
  ∧ (∀ b s1 s2 p, b ∈ branches cfg m → b s1 = Ok s2 →
                  s2 !! p = s1 !! p ∨ s2 !! p = Some true)
  ∧ contribution m (freeze_all m s0) <$> branches cfg m
    = [ head_params m; embedding_params cfg m; norm_params cfg m;
        decoder_blocks_params cfg m ]
  ∧ trainable m s'
    = head_params m ∪ embedding_params cfg m ∪ norm_params cfg m
      ∪ decoder_blocks_params cfg m
  ∧ trainable m s' = ⋃ (contribution m (freeze_all m s0) <$> branches cfg m)
  ∧ (∀ bs, bs ≡ₚ branches cfg m → run_branches bs (freeze_all m s0) = Ok s')
  ∧ (∀ cfg' s'', unfreezes_more cfg cfg' →
                 create_llama32_classifier cfg' m s0 = Ok s'' →
                 trainable m s' ⊆ trainable m s'').
Proof.
  intros Hc. pose proof (branches_unfreezer cfg m) as Hall.
  destruct (create_llama32_classifier_Ok_inv cfg m s0 s' Hc) as [Hn ->].
  split; [apply trainable_frozen|].
  split; [|split; [|split; [|split; [|split]]]].
  - intros b s1 s2 p Hb Hs. eapply unfreezer_only_sets_true; [|done].
    by eapply (proj1 (Forall_forall _ _) Hall).
  - by apply contributions_explicit.
  - apply set_eq. intros p. rewrite trainable_created_store.
    rewrite elem_of_union, elem_of_policy_sets.
    rewrite <- elem_of_decoder_blocks_params by done.
    unfold unfrozen_by. tauto.
  - apply set_eq. intros p.
    by rewrite trainable_created_store, contributions_created.
  - intros bs Hperm. rewrite <- Hc, create_llama32_classifier_branches.
    apply run_branches_perm; [done|]. by rewrite Hperm.
  - intros cfg' s'' Hmore Hc'.
    destruct (create_llama32_classifier_Ok_inv cfg' m s0 s'' Hc') as [_ ->].
    intros p. rewrite !trainable_created_store. by apply unfrozen_by_mono.
Qed.

Lemma unfreeze_branches_accumulate_witness :
  create_llama32_classifier (config_with 2) tiny_model (fresh_store tiny_model)
  = Ok (created_store (config_with 2) tiny_model (fresh_store tiny_model))
  ∧ trainable tiny_model (freeze_all tiny_model (fresh_store tiny_model)) = ∅
  ∧ trainable tiny_model
      (created_store (config_with 2) tiny_model (fresh_store tiny_model))
    = head_params tiny_model ∪ embedding_params (config_with 2) tiny_model
      ∪ norm_params (config_with 2) tiny_model
      ∪ decoder_blocks_params (config_with 2) tiny_model
  ∧ (∀ bs, bs ≡ₚ branches (config_with 2) tiny_model →
           run_branches bs (freeze_all tiny_model (fresh_store tiny_model))
           = Ok (created_store (config_with 2) tiny_model (fresh_store tiny_model))).
Proof.
  assert (create_llama32_classifier (config_with 2) tiny_model (fresh_store tiny_model)
          = Ok (created_store (config_with 2) tiny_model (fresh_store tiny_model)))
    as Hc.
  { apply create_llama32_classifier_created. simpl. lia. }
  destruct (unfreeze_branches_accumulate (config_with 2) tiny_model
              (fresh_store tiny_model) _ Hc)
    as (Hfrozen & _ & _ & Hset & _ & Horder & _).
  split; [exact Hc|]. split; [exact Hfrozen|].
  split; [exact Hset | exact Horder].
Defined.

(** X1. A zero or negative [num_decoder_layers_to_unfreeze] is accepted
    without an error: the guard of line 61 skips the loop, the factory
    returns what it returns for 0, and only the head, the unfrozen
    embedding and the unfrozen norm are trainable. *)
Theorem nonpositive_layer_count_unfreezes_none (cfg : FreezeConfig)
    (m : Llama32Classifier) (s0 : store) :
  (num_decoder_layers_to_unfreeze cfg ≤ 0)%Z →
  ∃ s, create_llama32_classifier cfg m s0 = Ok s
       ∧ create_llama32_classifier (with_num_layers cfg 0) m s0 = Ok s
       ∧ trainable m s
         = head_params m ∪ embedding_params cfg m ∪ norm_params cfg m.
Proof.
  intros Hn. exists (created_store cfg m s0).
  split; [apply create_llama32_classifier_created; lia|]. split.
  - rewrite create_llama32_classifier_created by (simpl; lia). f_equal.
    apply map_eq. intros p. apply created_store_lookup_eq; [|done].
    unfold unfrozen_by. simpl. by rewrite !decoder_params_nonpositive.
  - apply set_eq. intros p.
    rewrite trainable_created_store, elem_of_policy_sets. unfold unfrozen_by.
    rewrite decoder_params_nonpositive by done. rewrite elem_of_nil. tauto.
Qed.

Lemma nonpositive_layer_count_unfreezes_none_witness :
  (num_decoder_layers_to_unfreeze (config_with (-4)) ≤ 0)%Z
  ∧ ∃ s, create_llama32_classifier (config_with (-4)) tiny_model
           (fresh_store tiny_model) = Ok s
         ∧ create_llama32_classifier (with_num_layers (config_with (-4)) 0)
             tiny_model (fresh_store tiny_model) = Ok s
         ∧ trainable tiny_model s
           = head_params tiny_model
             ∪ embedding_params (config_with (-4)) tiny_model
             ∪ norm_params (config_with (-4)) tiny_model.
Proof.
  split; [simpl; lia|].
  apply (nonpositive_layer_count_unfreezes_none (config_with (-4)) tiny_model).
  simpl. lia.
Defined.

(** X2. The flags the model had before the call do not matter: from any
    two initial flag assignments the factory returns or raises alike, the
    flags of the parameters of the model come out the same, and the flag
    of anything that is not a parameter of the model is left as it was. *)
Theorem create_ignores_initial_flags (cfg : FreezeConfig)
    (m : Llama32Classifier) (s0 s1 s : store) :
  create_llama32_classifier cfg m s0 = Ok s →
  ∃ s', create_llama32_classifier cfg m s1 = Ok s'
        ∧ (∀ p, p ∈ parameters m → s' !! p = s !! p)
        ∧ (∀ p, p ∉ parameters m → s !! p = s0 !! p ∧ s' !! p = s1 !! p)
        ∧ trainable m s' = trainable m s.
Proof.
  intros Hc. destruct (create_llama32_classifier_Ok_inv cfg m s0 s Hc) as [Hn ->].
  exists (created_store cfg m s1).
  split; [by apply create_llama32_classifier_created|]. split; [|split].
  - intros p Hp. by apply created_store_lookup_eq.
  - intros p Hp.
    destruct (lookup_created_store cfg m s0 p) as (_ & _ & Ho).
    destruct (lookup_created_store cfg m s1 p) as (_ & _ & Ho').
    by rewrite Ho, Ho'.
  - apply set_eq. intros p. by rewrite !trainable_created_store.
Qed.

Lemma create_ignores_initial_flags_witness :
  create_llama32_classifier (config_with 2) tiny_model (fresh_store tiny_model)
  = Ok (created_store (config_with 2) tiny_model (fresh_store tiny_model))
  ∧ ∃ s', create_llama32_classifier (config_with 2) tiny_model ∅ = Ok s'
          ∧ (∀ p, p ∈ parameters tiny_model →
                  s' !! p
                  = created_store (config_with 2) tiny_model
                      (fresh_store tiny_model) !! p)
          ∧ (∀ p, p ∉ parameters tiny_model →
                  created_store (config_with 2) tiny_model
                    (fresh_store tiny_model) !! p
                  = fresh_store tiny_model !! p
                  ∧ s' !! p = (∅ : store) !! p)
          ∧ trainable tiny_model s'
            = trainable tiny_model
                (created_store (config_with 2) tiny_model (fresh_store tiny_model)).
Proof.
  assert (create_llama32_classifier (config_with 2) tiny_model (fresh_store tiny_model)
          = Ok (created_store (config_with 2) tiny_model (fresh_store tiny_model)))
    as Hc.
  { apply create_llama32_classifier_created. simpl. lia. }
  split; [exact Hc|].
  exact (create_ignores_initial_flags (config_with 2) tiny_model
           (fresh_store tiny_model) ∅ _ Hc).
Defined.

(** X3. The policy is applied from scratch at every call: run on the
    flags an earlier call left, with the same or with other options, the
    factory behaves as on the original flags, so the last call wins and
    a second call with the same options changes nothing. *)
Theorem create_last_call_wins (cfg cfg' : FreezeConfig)
    (m : Llama32Classifier) (s0 s : store) :
  create_llama32_classifier cfg m s0 = Ok s →
  create_llama32_classifier cfg' m s = create_llama32_classifier cfg' m s0
  ∧ create_llama32_classifier cfg m s = Ok s.
Proof.
  intros Hc. destruct (create_llama32_classifier_Ok_inv cfg m s0 s Hc) as [Hn ->].
  assert (∀ c, created_store c m (created_store cfg m s0) = created_store c m s0)
    as Hagain.
  { intros c. apply map_eq. intros p. apply created_store_lookup_eq; [done|].
    intros Hp. by destruct (lookup_created_store cfg m s0 p) as (_ & _ & ->). }
  split.
  - destruct (decide (num_decoder_layers_to_unfreeze cfg'
                      ≤ 2 * Z.of_nat (length (layers (llama_base m))))%Z).
    + by rewrite !create_llama32_classifier_created, Hagain by done.
    + by rewrite !create_llama32_classifier_index_error by lia.
  - by rewrite create_llama32_classifier_created, Hagain by done.
Qed.

Lemma create_last_call_wins_witness :
  create_llama32_classifier default_config tiny_model (fresh_store tiny_model)
  = Ok (created_store default_config tiny_model (fresh_store tiny_model))
  ∧ create_llama32_classifier (config_with 1) tiny_model
      (created_store default_config tiny_model (fresh_store tiny_model))
    = create_llama32_classifier (config_with 1) tiny_model (fresh_store tiny_model)
  ∧ create_llama32_classifier default_config tiny_model
      (created_store default_config tiny_model (fresh_store tiny_model))
    = Ok (created_store default_config tiny_model (fresh_store tiny_model)).
Proof.
  assert (create_llama32_classifier default_config tiny_model (fresh_store tiny_model)
          = Ok (created_store default_config tiny_model (fresh_store tiny_model)))
    as Hc.
  { apply create_llama32_classifier_created. simpl. lia. }
  split; [exact Hc|].
  exact (create_last_call_wins default_config (config_with 1) tiny_model
           (fresh_store tiny_model) _ Hc).
Defined.

(** X4. Whatever the options, a call that returns leaves every head
    parameter trainable, also one it shares with a frozen embedding, and
    never makes trainable a parameter outside the head, the embedding,
    the final norm and the decoder blocks: such a parameter is frozen. *)
Theorem create_head_always_rest_never (cfg : FreezeConfig)
    (m : Llama32Classifier) (s0 s : store) :
  create_llama32_classifier cfg m s0 = Ok s →
  (∀ p, p ∈ classifier m → s !! p = Some true)
  ∧ trainable m s ⊆ named_params m
  ∧ (∀ p, p ∈ parameters m → p ∉ named_params m → s !! p = Some false).
Proof.
  intros Hc. destruct (create_llama32_classifier_Ok_inv cfg m s0 s Hc) as [Hn ->].
  assert (∀ p, unfrozen_by cfg m p → p ∈ named_params m) as Hnamed.
  { intros p. unfold unfrozen_by, named_params, head_params.
    rewrite !elem_of_union, !elem_of_list_to_set.
    intros [Hp | [[_ Hp] | [[_ Hp] | Hp]]]; [tauto..|].
    apply elem_of_decoder_params in Hp as (i & _ & Hp%elem_of_layer_of). tauto. }
  split; [|split].
  - intros p Hp. destruct (lookup_created_store cfg m s0 p) as (Ht & _ & _).
    apply Ht. by left.
  - intros p Hp%trainable_created_store. by apply Hnamed.
  - intros p Hp Hout. destruct (lookup_created_store cfg m s0 p) as (_ & Hf & _).
    apply Hf; [|done]. intros Hu. by apply Hout, Hnamed.
Qed.

Lemma create_head_always_rest_never_witness :
  create_llama32_classifier (config_with 1) tied_model (fresh_store tied_model)
  = Ok (created_store (config_with 1) tied_model (fresh_store tied_model))
  ∧ freeze_embedding (config_with 1) = true
  ∧ 1%positive ∈ embed_tokens (llama_base tied_model)
  ∧ created_store (config_with 1) tied_model (fresh_store tied_model) !! 1%positive
    = Some true
  ∧ created_store (config_with 1) tied_model (fresh_store tied_model) !! 5%positive
    = Some false.
Proof.
  assert (create_llama32_classifier (config_with 1) tied_model (fresh_store tied_model)
          = Ok (created_store (config_with 1) tied_model (fresh_store tied_model)))
    as Hc.
  { apply create_llama32_classifier_created. simpl. lia. }
  destruct (create_head_always_rest_never (config_with 1) tied_model
              (fresh_store tied_model) _ Hc) as (Hhead & _ & Hrest).
  split; [exact Hc|]. split; [reflexivity|].
  split; [simpl; apply list_elem_of_singleton; reflexivity|].
  split.
  - apply Hhead. simpl. apply elem_of_cons. by left.
  - apply Hrest; apply (bool_decide_unpack _); vm_compute; exact I.
Defined.

(** X5. Asking for more decoder blocks than the trunk has, up to twice as
    many, is the same as asking for all of them: the index wrap-around
    only visits blocks a second time. *)
Theorem surplus_layer_count_saturates (cfg : FreezeConfig)
    (m : Llama32Classifier) (s0 : store) :
  (Z.of_nat (length (layers (llama_base m)))
   ≤ num_decoder_layers_to_unfreeze cfg
   ≤ 2 * Z.of_nat (length (layers (llama_base m))))%Z →
  create_llama32_classifier cfg m s0
  = create_llama32_classifier
      (with_num_layers cfg (Z.of_nat (length (layers (llama_base m))))) m s0.
Proof.
  intros Hn. rewrite !create_llama32_classifier_created by (simpl; lia).
  f_equal. apply map_eq. intros p. apply created_store_lookup_eq; [|done].
  unfold unfrozen_by. rewrite !decoder_params_full by (simpl; lia). done.
Qed.

Lemma surplus_layer_count_saturates_witness :
  (Z.of_nat (length (layers (llama_base tiny_model)))
   ≤ num_decoder_layers_to_unfreeze default_config
   ≤ 2 * Z.of_nat (length (layers (llama_base tiny_model))))%Z
  ∧ create_llama32_classifier default_config tiny_model (fresh_store tiny_model)
    = create_llama32_classifier (with_num_layers default_config 3) tiny_model
        (fresh_store tiny_model).
Proof.
  split; [simpl; lia|].
  apply (surplus_layer_count_saturates default_config tiny_model).
  simpl. lia.
Defined.

(** ** The entry point: the tracker calls of a process *)

(** X6. In every launch the tracker calls of a process are, in order:
    one [wandb.init] on the coordinator and none on another process, then
    the tracker calls [train] made, then one [wandb.finish] when [train]
    returned and none when it raised, since [main] has no [try]; [main]
    itself never logs.  With a [train] that returns, the calls are those
    of [main] above. *)
Theorem main_tracker_calls (nprocs rank : nat)
    (train : TrainArgs → list call * train_end) :
  filter (λ c, tracker_call c = true) (main_run nprocs rank train)
  = (if decide (rank = 0)
     then [wandb_init "qwen25_math_classifier" "9th"] else [])
    ++ filter (λ c, tracker_call c = true)
         (train (train_args (make_accelerator nprocs rank))).1
    ++ match (train (train_args (make_accelerator nprocs rank))).2 with
       | Returned => [wandb_finish]
       | Raised => []
       end
  ∧ main_run nprocs rank (λ args, ((train args).1, Returned))
    = main nprocs rank (λ args, (train args).1).
Proof.
  split; [|reflexivity].
  unfold main_run, is_main_process. cbv zeta. rewrite !filter_app.
  destruct (train (train_args (make_accelerator nprocs rank))) as [calls []];
    destruct rank as [|r]; reflexivity.
Qed.
